(** * waterfuse: the flow-monitoring control loop of [waterfuse.c]

    A shallow embedding of the C program: its globals become one record,
    every statement of the loop of [main] becomes a state update, and the
    loop body is given twice, as the function [tick] (one uninterrupted pass
    over lines 271-337) and as a program-counter machine [exec] that runs one
    statement at a time, so that the interrupt service routine and the signal
    handler can be scheduled between two statements as the hardware does.

    Conventions
    - [int] and [unsigned int] are 32 bits wide; values are kept in [Z] and
      every operation writes its wrap-around out.  Signed overflow, which C
      leaves undefined, wraps as on the two's complement target.
    - A trapping operation (division by zero, [INT_MIN / -1], an index outside
      [reset_msg] or [stop_msg]) makes the step return [None].
    - [printLog] only formats text for the log stream and is left out; the
      arguments it evaluates are kept where they can trap ([showStats]).
    - The state file is opened with mode "w" on every [writeState]; the model
      keeps the whole history of writes, oldest first.  Whether the file can
      be opened is part of the state: [writeState] hands the result of
      [fopen] to [vfprintf] unchecked, so a failed open is a trap too.
    - [readConfig] scans each word with an unbounded [%s] into
      [char buf[1024]]; a word that does not fit is a trap as well. *)

From Stdlib Require Import ZArith List String Ascii Bool Lia.
Import ListNotations.
Open Scope Z_scope.

(** ** Machine integers *)

Module CInt.

Definition UINT_MOD : Z := 2 ^ 32.
Definition INT_MIN : Z := - 2 ^ 31.
Definition INT_MAX : Z := 2 ^ 31 - 1.

(** conversion to [unsigned int] *)
Definition to_uint (z : Z) : Z := z mod UINT_MOD.

(** conversion to [int] (two's complement) *)
Definition to_int (z : Z) : Z := (z + 2 ^ 31) mod UINT_MOD - 2 ^ 31.

Definition int_range (z : Z) : Prop := INT_MIN <= z <= INT_MAX.
Definition uint_range (z : Z) : Prop := 0 <= z < UINT_MOD.

Definition add_int (a b : Z) : Z := to_int (a + b).
Definition sub_int (a b : Z) : Z := to_int (a - b).
Definition mul_int (a b : Z) : Z := to_int (a * b).
Definition sub_uint (a b : Z) : Z := to_uint (a - b).

(** [a / b] on [int]: truncates towards zero, traps on a zero divisor and
    on the one quotient that does not fit. *)
Definition div_int (a b : Z) : option Z :=
  if b =? 0 then None
  else if (a =? INT_MIN) && (b =? -1) then None
  else Some (Z.quot a b).

(** [a / b] on [unsigned int] *)
Definition div_uint (a b : Z) : option Z :=
  if b =? 0 then None else Some (a / b).

End CInt.
Import CInt.

Notation "x <- c1 ;; c2" :=
  (match c1 with Some x => c2 | None => None end)
  (at level 61, c1 at next level, right associativity).

(** ** Pins, strings *)

Inductive Level : Type := LOW | HIGH.

Definition Level_eqb (a b : Level) : bool :=
  match a, b with
  | LOW, LOW | HIGH, HIGH => true
  | _, _ => false
  end.

Definition tab : string := String (ascii_of_nat 9) EmptyString.
Definition nl : string := String (ascii_of_nat 10) EmptyString.

(** [char * reset_msg[3]] and [char * stop_msg[3]] of [main] *)
Definition reset_msg : list string := [EmptyString; "button"; "signal"]%string.
Definition stop_msg : list string := [EmptyString; "volume"; "time"]%string.

(** indexing a C array of three strings with an [unsigned int] or [int] *)
Definition index (tbl : list string) (i : Z) : option string :=
  if i <? 0 then None else nth_error tbl (Z.to_nat i).

(** ** Globals *)

(** The five configuration globals. *)
Record Config : Type := mkConfig {
  clicks_per_litre : Z;
  max_litres : Z;
  reset_period : Z;
  time_limit : Z;
  verbose : Z
}.

Definition CLICKS_PER_LITRE : Z := 450.
Definition MAX_FLOW : Z := 200.
Definition RESET_PERIOD : Z := 600.
Definition MAX_TIME : Z := 900.

(** the initialisers of lines 38-43 *)
Definition default_config : Config :=
  mkConfig CLICKS_PER_LITRE MAX_FLOW RESET_PERIOD MAX_TIME 0.

Definition with_clicks_per_litre (v : Z) (c : Config) : Config :=
  mkConfig v (max_litres c) (reset_period c) (time_limit c) (verbose c).
Definition with_max_litres (v : Z) (c : Config) : Config :=
  mkConfig (clicks_per_litre c) v (reset_period c) (time_limit c) (verbose c).
Definition with_reset_period (v : Z) (c : Config) : Config :=
  mkConfig (clicks_per_litre c) (max_litres c) v (time_limit c) (verbose c).
Definition with_time_limit (v : Z) (c : Config) : Config :=
  mkConfig (clicks_per_litre c) (max_litres c) (reset_period c) v (verbose c).
Definition with_verbose (v : Z) (c : Config) : Config :=
  mkConfig (clicks_per_litre c) (max_litres c) (reset_period c) (time_limit c) v.

(** The remaining globals, the relay pin and the state file.  [triggered]
    and [counting] are [unsigned char] flags that only ever hold 0 or 1. *)
Record State : Type := mkState {
  clicks : Z;               (* volatile unsigned int *)
  reset : Z;                (* volatile unsigned int *)
  triggered : bool;
  counting : bool;
  last_click_time : Z;
  last_click_count : Z;
  first_click_time : Z;
  total_clicks : Z;
  cfg : Config;
  relay : Level;            (* POWER_RELAY *)
  statefile : list string;  (* every writeState, oldest first *)
  statefile_opens : bool    (* fopen of the state file returns a stream *)
}.

Definition set_clicks (v : Z) (s : State) : State :=
  mkState v (reset s) (triggered s) (counting s) (last_click_time s)
    (last_click_count s) (first_click_time s) (total_clicks s) (cfg s)
    (relay s) (statefile s) (statefile_opens s).
Definition set_reset (v : Z) (s : State) : State :=
  mkState (clicks s) v (triggered s) (counting s) (last_click_time s)
    (last_click_count s) (first_click_time s) (total_clicks s) (cfg s)
    (relay s) (statefile s) (statefile_opens s).
Definition set_triggered (v : bool) (s : State) : State :=
  mkState (clicks s) (reset s) v (counting s) (last_click_time s)
    (last_click_count s) (first_click_time s) (total_clicks s) (cfg s)
    (relay s) (statefile s) (statefile_opens s).
Definition set_counting (v : bool) (s : State) : State :=
  mkState (clicks s) (reset s) (triggered s) v (last_click_time s)
    (last_click_count s) (first_click_time s) (total_clicks s) (cfg s)
    (relay s) (statefile s) (statefile_opens s).
Definition set_last_click_time (v : Z) (s : State) : State :=
  mkState (clicks s) (reset s) (triggered s) (counting s) v
    (last_click_count s) (first_click_time s) (total_clicks s) (cfg s)
    (relay s) (statefile s) (statefile_opens s).
Definition set_last_click_count (v : Z) (s : State) : State :=
  mkState (clicks s) (reset s) (triggered s) (counting s) (last_click_time s)
    v (first_click_time s) (total_clicks s) (cfg s)
    (relay s) (statefile s) (statefile_opens s).
Definition set_first_click_time (v : Z) (s : State) : State :=
  mkState (clicks s) (reset s) (triggered s) (counting s) (last_click_time s)
    (last_click_count s) v (total_clicks s) (cfg s)
    (relay s) (statefile s) (statefile_opens s).
Definition set_total_clicks (v : Z) (s : State) : State :=
  mkState (clicks s) (reset s) (triggered s) (counting s) (last_click_time s)
    (last_click_count s) (first_click_time s) v (cfg s)
    (relay s) (statefile s) (statefile_opens s).
Definition set_cfg (v : Config) (s : State) : State :=
  mkState (clicks s) (reset s) (triggered s) (counting s) (last_click_time s)
    (last_click_count s) (first_click_time s) (total_clicks s) v
    (relay s) (statefile s) (statefile_opens s).

(** [digitalWrite(POWER_RELAY, v)] *)
Definition digitalWrite (v : Level) (s : State) : State :=
  mkState (clicks s) (reset s) (triggered s) (counting s) (last_click_time s)
    (last_click_count s) (first_click_time s) (total_clicks s) (cfg s)
    v (statefile s) (statefile_opens s).

(** the state file after [fopen], [vfprintf] of [line] and [fclose] *)
Definition append_record (line : string) (s : State) : State :=
  mkState (clicks s) (reset s) (triggered s) (counting s) (last_click_time s)
    (last_click_count s) (first_click_time s) (total_clicks s) (cfg s)
    (relay s) (statefile s ++ [line]) (statefile_opens s).

(** [writeState(fmt, ...)] with the formatted text [line]: the stream that
    [fopen] returns goes to [vfprintf] unchecked, so the call traps when
    the file cannot be opened. *)
Definition writeState (line : string) (s : State) : option State :=
  if statefile_opens s then Some (append_record line s) else None.

Definition started_line (why : string) : string :=
  ("started" ++ tab ++ why ++ nl)%string.
Definition stopped_line (why : string) : string :=
  ("stopped" ++ tab ++ why ++ nl)%string.

(** The globals as initialised at lines 30-43, after [readConfig] and the
    command line produced [c], after [writeState("started\tstartup\n")]
    (line 231), which has opened the state file, and
    [digitalWrite(POWER_RELAY, HIGH)] (line 267). *)
Definition startup (c : Config) : State :=
  mkState 0 0 false false 0 0 0 0 c HIGH [started_line "startup"] true.

(** ** The asynchronous contexts *)

(** [handleClick], the interrupt service routine of the flow meter. *)
Definition handleClick (s : State) : State :=
  set_clicks (to_uint (clicks s + 1)) s.

(** ** readConfig *)

(** One call of [fscanf(cfg, "%s %d", &buf, &val)] that did not return
    [EOF]: the word stored in [buf], and the integer stored in [val] when
    the second conversion succeeded ([None]: [val] keeps what it held). *)
Definition scan_item : Type := (string * option Z)%type.

(** the [if / else if] chain of lines 76-86 *)
Definition assign_key (buf : string) (val : Z) (c : Config) : Config :=
  if String.eqb "reset_period" buf then with_reset_period val c
  else if String.eqb "max_time" buf then with_time_limit (mul_int val 60) c
  else if String.eqb "max_litres" buf then with_max_litres val c
  else if String.eqb "clicks_per_litre" buf then with_clicks_per_litre val c
  else if String.eqb "verbosity" buf then with_verbose val c
  else c.

(** the [while] loop of line 75; [val] is the local carried across calls *)
Fixpoint scan_loop (items : list scan_item) (val : Z) (c : Config) : Config :=
  match items with
  | [] => c
  | (buf, conv) :: rest =>
      let val' := match conv with Some v => v | None => val end in
      scan_loop rest val' (assign_key buf val' c)
  end.

(** [char buf[1024]] *)
Definition BUF_SIZE : nat := 1024.

(** the word and its terminating NUL fit into [buf] *)
Definition fits (item : scan_item) : bool :=
  Nat.ltb (String.length (fst item)) BUF_SIZE.

(** [readConfig]: [file] is [None] when [fopen] returns [NULL], otherwise
    the successive results of [fscanf] up to [EOF]; [val0] is what the
    uninitialised local [val] happens to hold.  The conversion [%s] has no
    field width: a word of 1024 characters or more is written past the
    end of [buf], and the call traps. *)
Definition readConfig (file : option (list scan_item)) (val0 : Z)
    (c : Config) : option Config :=
  match file with
  | None => Some c
  | Some items =>
      if forallb fits items then Some (scan_loop items val0 c) else None
  end.

(** [showStats(level)]: the only part that can matter is the division it
    evaluates for its last [printLog]. *)
Definition showStats (s : State) : option unit :=
  _ <- div_int (total_clicks s) (clicks_per_litre (cfg s)) ;; Some tt.

(** ** signalHandler *)

Inductive Signal : Type :=
| SIGHUP (file : option (list scan_item)) (val0 : Z)
| SIGUSR1
| SIGUSR2
| SIGCONT.

Definition signalHandler (sig : Signal) (s : State) : option State :=
  match sig with
  | SIGHUP file val0 =>
      c <- readConfig file val0 (cfg s) ;; Some (set_cfg c s)
  | SIGUSR1 => Some (set_reset 2 s)
  | SIGUSR2 => _ <- showStats s ;; Some s
  | SIGCONT => Some (set_triggered true (digitalWrite LOW s))
  end.

(** ** One pass of the loop of [main], uninterrupted *)

(** lines 291-301, the body of [if (reset)] *)
Definition reset_block (now : Z) (s : State) : option State :=
  let s := set_triggered false s in
  let s := set_clicks 0 s in
  let s := set_counting false s in
  let s := set_last_click_count 0 s in
  let s := set_last_click_time now s in
  let s := set_first_click_time now s in
  why <- index reset_msg (reset s) ;;
  s <- writeState (started_line why) s ;;
  let s := set_reset 0 s in
  Some (digitalWrite HIGH s).

(** lines 314-320: the two threshold tests, in the order of the source *)
Definition stop_reason_of (litres seconds_from_first : Z) (c : Config) : Z :=
  let stop_reason := 0 in
  let stop_reason :=
    if litres >? to_uint (max_litres c) then 1 else stop_reason in
  let stop_reason :=
    if seconds_from_first >? time_limit c then 2 else stop_reason in
  stop_reason.

(** lines 303-336, the body of [if (!triggered)] and its guard *)
Definition flow_block (now seconds new_clicks litres : Z) (s : State)
    : option State :=
  if negb (triggered s) then
    if counting s then
      if new_clicks =? 0 then
        if seconds >? reset_period (cfg s) then
          let s := set_counting false s in
          let s := set_clicks 0 s in
          Some (set_last_click_count 0 s)
        else Some s
      else
        let s := set_last_click_time now s in
        let seconds_from_first :=
          sub_int (last_click_time s) (first_click_time s) in
        let stop_reason := stop_reason_of litres seconds_from_first (cfg s) in
        if negb (stop_reason =? 0) then
          let s := set_triggered true s in
          why <- index stop_msg stop_reason ;;
          s <- writeState (stopped_line why) s ;;
          _ <- showStats s ;;
          Some (digitalWrite LOW s)
        else Some s
    else
      if negb (new_clicks =? 0) then
        let s := set_counting true s in
        let s := set_first_click_time now s in
        Some (set_last_click_time now s)
      else Some s
  else Some s.

(** Lines 271-337.  [now] is what [time(0)] returns, [button] what
    [digitalRead(RESET_BUTTON)] returns. *)
Definition tick (now : Z) (button : Level) (s : State) : option State :=
  let seconds := sub_int now (last_click_time s) in
  let new_clicks := to_int (sub_uint (clicks s) (to_uint (last_click_count s))) in
  let s := set_last_click_count (to_int (clicks s)) s in
  let s := set_total_clicks (add_int (total_clicks s) new_clicks) s in
  total_litres <- div_int (total_clicks s) (clicks_per_litre (cfg s)) ;;
  litres <- div_uint (clicks s) (to_uint (clicks_per_litre (cfg s))) ;;
  let s := if triggered s && Level_eqb button LOW then set_reset 1 s else s in
  if negb (reset s =? 0) then
    s <- reset_block now s ;;
    flow_block now seconds 0 litres s
  else
    flow_block now seconds new_clicks litres s.

(** The three phases of the specification, read off the two flags. *)
Inductive Phase : Type := Idle | Counting | Triggered.

Definition phase (s : State) : Phase :=
  if triggered s then Triggered
  else if counting s then Counting
  else Idle.

(** ** The loop of [main], one statement at a time *)

(** The program points of the loop body, named after their source lines. *)
Inductive Pc : Type :=
| L271 | L280 | L281 | L282 | L283 | L284 | L285 | L286 | L287 | L288
| L290 | L291 | L292 | L293 | L294 | L295 | L296 | L297 | L298 | L299
| L300 | L301 | L303 | L304 | L305 | L306 | L307 | L308 | L309
| L312 | L313 | L314 | L315 | L316 | L318 | L319 | L321 | L322 | L323
| L324 | L325 | L326 | L330 | L331 | L332 | L333 | L337.

(** The locals of [main] that the loop uses. *)
Record Locals : Type := mkLocals {
  now : Z;
  seconds : Z;
  new_clicks : Z;
  total_litres : Z;
  litres : Z;                (* unsigned int *)
  seconds_from_first : Z;
  stop_reason : Z
}.

Definition set_now (v : Z) (l : Locals) : Locals :=
  mkLocals v (seconds l) (new_clicks l) (total_litres l) (litres l)
    (seconds_from_first l) (stop_reason l).
Definition set_seconds (v : Z) (l : Locals) : Locals :=
  mkLocals (now l) v (new_clicks l) (total_litres l) (litres l)
    (seconds_from_first l) (stop_reason l).
Definition set_new_clicks (v : Z) (l : Locals) : Locals :=
  mkLocals (now l) (seconds l) v (total_litres l) (litres l)
    (seconds_from_first l) (stop_reason l).
Definition set_total_litres (v : Z) (l : Locals) : Locals :=
  mkLocals (now l) (seconds l) (new_clicks l) v (litres l)
    (seconds_from_first l) (stop_reason l).
Definition set_litres (v : Z) (l : Locals) : Locals :=
  mkLocals (now l) (seconds l) (new_clicks l) (total_litres l) v
    (seconds_from_first l) (stop_reason l).
Definition set_seconds_from_first (v : Z) (l : Locals) : Locals :=
  mkLocals (now l) (seconds l) (new_clicks l) (total_litres l) (litres l)
    v (stop_reason l).
Definition set_stop_reason (v : Z) (l : Locals) : Locals :=
  mkLocals (now l) (seconds l) (new_clicks l) (total_litres l) (litres l)
    (seconds_from_first l) v.

(** [litres] and [stop_reason] are initialised at lines 184-185; the other
    locals are assigned in the loop before they are read. *)
Definition locals0 : Locals := mkLocals 0 0 0 0 0 0 0.

(** The running program: where [main] stands, its locals, the globals,
    and the two inputs the loop samples (the clock and the button pin). *)
Record Machine : Type := mkMachine {
  pc : Pc;
  loc : Locals;
  glob : State;
  hw_time : Z;
  hw_button : Level
}.

Definition goto (p : Pc) (m : Machine) : Machine :=
  mkMachine p (loc m) (glob m) (hw_time m) (hw_button m).
Definition on_loc (f : Locals -> Locals) (m : Machine) : Machine :=
  mkMachine (pc m) (f (loc m)) (glob m) (hw_time m) (hw_button m).
Definition on_glob (f : State -> State) (m : Machine) : Machine :=
  mkMachine (pc m) (loc m) (f (glob m)) (hw_time m) (hw_button m).

(** One statement of [main]. *)
Definition exec (m : Machine) : option Machine :=
  let l := loc m in
  let g := glob m in
  match pc m with
  | L271 => Some (goto L280 (on_loc (set_now (hw_time m)) m))
  | L280 =>
      Some (goto L281
        (on_loc (set_seconds (sub_int (now l) (last_click_time g))) m))
  | L281 =>
      Some (goto L282
        (on_loc (set_new_clicks
          (to_int (sub_uint (clicks g) (to_uint (last_click_count g))))) m))
  | L282 => Some (goto L283 (on_glob (set_last_click_count (to_int (clicks g))) m))
  | L283 =>
      Some (goto L284
        (on_glob (set_total_clicks (add_int (total_clicks g) (new_clicks l))) m))
  | L284 =>
      q <- div_int (total_clicks g) (clicks_per_litre (cfg g)) ;;
      Some (goto L285 (on_loc (set_total_litres q) m))
  | L285 =>
      q <- div_uint (clicks g) (to_uint (clicks_per_litre (cfg g))) ;;
      Some (goto L286 (on_loc (set_litres q) m))
  | L286 => Some (goto L287 m)
  | L287 =>
      if triggered g && Level_eqb (hw_button m) LOW
      then Some (goto L288 m) else Some (goto L290 m)
  | L288 => Some (goto L290 (on_glob (set_reset 1) m))
  | L290 => if negb (reset g =? 0) then Some (goto L291 m) else Some (goto L303 m)
  | L291 => Some (goto L292 (on_glob (set_triggered false) m))
  | L292 => Some (goto L293 (on_glob (set_clicks 0) m))
  | L293 => Some (goto L294 (on_glob (set_counting false) m))
  | L294 => Some (goto L295 (on_glob (set_last_click_count 0) m))
  | L295 => Some (goto L296 (on_loc (set_new_clicks 0) m))
  | L296 => Some (goto L297 (on_glob (set_last_click_time (now l)) m))
  | L297 => Some (goto L298 (on_glob (set_first_click_time (now l)) m))
  | L298 => _ <- index reset_msg (reset g) ;; Some (goto L299 m)
  | L299 =>
      why <- index reset_msg (reset g) ;;
      g' <- writeState (started_line why) g ;;
      Some (goto L300 (on_glob (fun _ => g') m))
  | L300 => Some (goto L301 (on_glob (set_reset 0) m))
  | L301 => Some (goto L303 (on_glob (digitalWrite HIGH) m))
  | L303 => if negb (triggered g) then Some (goto L304 m) else Some (goto L337 m)
  | L304 => if counting g then Some (goto L305 m) else Some (goto L330 m)
  | L305 => if new_clicks l =? 0 then Some (goto L306 m) else Some (goto L312 m)
  | L306 =>
      if seconds l >? reset_period (cfg g)
      then Some (goto L307 m) else Some (goto L337 m)
  | L307 => Some (goto L308 (on_glob (set_counting false) m))
  | L308 => Some (goto L309 (on_glob (set_clicks 0) m))
  | L309 => Some (goto L337 (on_glob (set_last_click_count 0) m))
  | L312 => Some (goto L313 (on_glob (set_last_click_time (now l)) m))
  | L313 =>
      Some (goto L314
        (on_loc (set_seconds_from_first
          (sub_int (last_click_time g) (first_click_time g))) m))
  | L314 => Some (goto L315 (on_loc (set_stop_reason 0) m))
  | L315 =>
      if litres l >? to_uint (max_litres (cfg g))
      then Some (goto L316 m) else Some (goto L318 m)
  | L316 => Some (goto L318 (on_loc (set_stop_reason 1) m))
  | L318 =>
      if seconds_from_first l >? time_limit (cfg g)
      then Some (goto L319 m) else Some (goto L321 m)
  | L319 => Some (goto L321 (on_loc (set_stop_reason 2) m))
  | L321 =>
      if negb (stop_reason l =? 0) then Some (goto L322 m) else Some (goto L337 m)
  | L322 => Some (goto L323 (on_glob (set_triggered true) m))
  | L323 => _ <- index stop_msg (stop_reason l) ;; Some (goto L324 m)
  | L324 =>
      why <- index stop_msg (stop_reason l) ;;
      g' <- writeState (stopped_line why) g ;;
      Some (goto L325 (on_glob (fun _ => g') m))
  | L325 => _ <- showStats g ;; Some (goto L326 m)
  | L326 => Some (goto L337 (on_glob (digitalWrite LOW) m))
  | L330 =>
      if negb (new_clicks l =? 0) then Some (goto L331 m) else Some (goto L337 m)
  | L331 => Some (goto L332 (on_glob (set_counting true) m))
  | L332 => Some (goto L333 (on_glob (set_first_click_time (now l)) m))
  | L333 => Some (goto L337 (on_glob (set_last_click_time (now l)) m))
  | L337 => Some (goto L271 m)
  end.

(** What can happen next: [main] runs one statement, the flow meter raises
    its interrupt, a signal is delivered, the clock or the button changes. *)
Inductive Event : Type :=
| EMain
| EClick
| ESignal (sig : Signal)
| EClock (t : Z)
| EButton (b : Level).

Definition step (e : Event) (m : Machine) : option Machine :=
  match e with
  | EMain => exec m
  | EClick => Some (on_glob handleClick m)
  | ESignal sig =>
      g <- signalHandler sig (glob m) ;;
      Some (mkMachine (pc m) (loc m) g (hw_time m) (hw_button m))
  | EClock t => Some (mkMachine (pc m) (loc m) (glob m) t (hw_button m))
  | EButton b => Some (mkMachine (pc m) (loc m) (glob m) (hw_time m) b)
  end.

Fixpoint run (sched : list Event) (m : Machine) : option Machine :=
  match sched with
  | [] => Some m
  | e :: rest => m' <- step e m ;; run rest m'
  end.

(** [main] alone, from wherever it stands up to and including the
    [delay(1000)] that ends the pass. *)
Fixpoint main_pass (fuel : nat) (m : Machine) : option Machine :=
  match fuel with
  | O => None
  | S fuel' =>
      m' <- exec m ;;
      match pc m with
      | L337 => Some m'
      | _ => main_pass fuel' m'
      end
  end.

(** The machine as [main] enters its loop. *)
Definition boot (c : Config) (t : Z) (b : Level) : Machine :=
  mkMachine L271 locals0 (startup c) t b.

(** ** Quantities of a pass, uninterrupted runs, schedules and the
       states and runs the examples use *)

(** the value line 281 gives to [new_clicks] *)
Definition new_clicks_of (s : State) : Z :=
  to_int (sub_uint (clicks s) (to_uint (last_click_count s))).

(** the value line 285 gives to [litres] *)
Definition litres_of (s : State) : Z :=
  clicks s / to_uint (clicks_per_litre (cfg s)).

(** [clicks_per_litre] is a positive [int] *)
Definition valid_cpl (c : Config) : Prop :=
  0 < clicks_per_litre c <= INT_MAX.

(** The state after lines 282-283. *)
Definition after_read (s : State) : State :=
  set_total_clicks (add_int (total_clicks s) (new_clicks_of s))
    (set_last_click_count (to_int (clicks s)) s).

(** the reason text of a nonzero [stop_reason] *)
Definition stop_text (k : Z) : string :=
  if k =? 1 then "volume"%string else "time"%string.

(** What happens between and including whole passes of the loop: a pulse,
    a pass, a signal. *)
Inductive Action : Type :=
| APulse
| ATick (t : Z) (b : Level)
| ASignal (sig : Signal).

Definition act (a : Action) (s : State) : option State :=
  match a with
  | APulse => Some (handleClick s)
  | ATick t b => tick t b s
  | ASignal sig => signalHandler sig s
  end.

Fixpoint play (l : list Action) (s : State) : option State :=
  match l with
  | [] => Some s
  | a :: rest => s' <- act a s ;; play rest s'
  end.

Definition pulses (n : Z) : list Action := repeat APulse (Z.to_nat n).

(** A Counting state with 201 litres on the counter (limit 200) whose
    episode began 1000 seconds before the pass at time 1000 (limit 900). *)
Definition tie_state : State :=
  mkState 90450 0 false true 0 450 0 450 default_config HIGH
    [started_line "startup"] true.

(** The configuration of the volume example: 100 pulses a litre, at most
    10 litres; the other limits as built in. *)
Definition volume_config : Config := mkConfig 100 10 RESET_PERIOD MAX_TIME 0.

(** The state after one pulse opened the episode at time 1 and 1000 more
    arrived before the pass at time 2. *)
Definition after_1001 : State :=
  mkState 1001 0 false true 1 1 1 1 volume_config HIGH
    [started_line "startup"] true.

(** The state of the same episode once 1100 pulses have arrived. *)
Definition after_1100 : State :=
  mkState 1100 0 false true 1 1 1 1 volume_config HIGH
    [started_line "startup"] true.

(** An episode opened at time 1000 whose pass at 1061 finds one new pulse;
    the volume (0 litres) is far below the limit. *)
Definition minute_state : State :=
  mkState 62 0 false true 1060 61 1000 61
    (with_time_limit 60 default_config) HIGH [started_line "startup"] true.

(** One pulse before every pass, one pass a second: the run of the time
    example, from the pass at [t0] that opens the episode. *)
Fixpoint steady (n : nat) (t : Z) : list Action :=
  match n with
  | O => []
  | S n' => APulse :: ATick t HIGH :: steady n' (t + 1)
  end.

(** An episode whose last pulse came at second 100, read at second 701
    with the built-in [reset_period] of 600. *)
Definition stalled_state : State :=
  mkState 37 0 false true 100 37 90 37 default_config HIGH
    [started_line "startup"] true.

(** the source a reset is attributed to: the button when line 288 fires or
    [reset] already was 1, the signal otherwise *)
Definition reset_source (b : Level) (s : State) : string :=
  if (triggered s && Level_eqb b LOW) || (reset s =? 1)
  then "button"%string else "signal"%string.

(** What every pass that consumes a reset leaves behind. *)
Definition after_reset (t : Z) (why : string) (s s' : State) : Prop :=
  phase s' = Idle /\
  clicks s' = 0 /\
  last_click_count s' = 0 /\
  first_click_time s' = t /\
  last_click_time s' = t /\
  reset s' = 0 /\
  relay s' = HIGH /\
  statefile s' = statefile s ++ [started_line why].

(** A Triggered state in which SIGUSR1 has since set [reset] to 2. *)
Definition tripped_state : State :=
  mkState 90450 2 true true 1000 90450 0 90450 default_config LOW
    [started_line "startup"; stopped_line "time"] true.


(** The over-limit episode of [tie_state], read again 5000 seconds later
    with no pulse since the last pass. *)
Definition paused_state : State :=
  set_last_click_count 90450 tie_state.


(** the pulses of a run *)
Fixpoint count_pulses (l : list Action) : Z :=
  match l with
  | [] => 0
  | APulse :: rest => 1 + count_pulses rest
  | _ :: rest => count_pulses rest
  end.

(** the successive values line 281 gives to [new_clicks] along a run *)
Fixpoint reads (l : list Action) (s : State) : option (list Z) :=
  match l with
  | [] => Some []
  | a :: rest =>
      s' <- act a s ;;
      ds <- reads rest s' ;;
      Some (match a with
            | ATick _ _ => new_clicks_of s :: ds
            | _ => ds
            end)
  end.

Definition sum (ds : list Z) : Z := fold_right Z.add 0 ds.

(** pulses counted by the ISR and not yet read by the loop *)
Definition pending (s : State) : Z := clicks s - to_uint (last_click_count s).

(** the counter and baseline as the reads assume them: the baseline is a
    non-negative [int] no larger than the counter *)
Definition counter_ok (s : State) (bound : Z) : Prop :=
  0 <= last_click_count s <= clicks s /\ clicks s <= bound.

(** the interrupts of a schedule *)
Fixpoint count_clicks (sched : list Event) : Z :=
  match sched with
  | [] => 0
  | EClick :: rest => 1 + count_clicks rest
  | _ :: rest => count_clicks rest
  end.

(** the successive values line 281 gives to [new_clicks] along a
    schedule *)
Fixpoint read_deltas (sched : list Event) (m : Machine) : option (list Z) :=
  match sched with
  | [] => Some []
  | e :: rest =>
      m' <- step e m ;;
      ds <- read_deltas rest m' ;;
      Some (match e, pc m with
            | EMain, L281 => new_clicks (loc m') :: ds
            | _, _ => ds
            end)
  end.

(** [n] consecutive statements of [main] *)
Definition mains (n : nat) : list Event := repeat EMain n.

(** The interrupt fires once, after line 281 has read the counter and
    before line 282 reads it again; [main] then finishes the pass and runs
    a second one undisturbed. *)
Definition lost_pulse_schedule : list Event :=
  mains 3 ++ [EClick] ++ mains 11 ++ mains 14.

(** SIGUSR1 asks for a reset; the interrupt fires after line 282 has moved
    the baseline and before line 292 zeroes the counter. *)
Definition reset_race_schedule : list Event :=
  [ESignal SIGUSR1] ++ mains 4 ++ [EClick] ++ mains 21.

(** the invariant of the specification, at the end of a pass *)
Definition relay_matches_phase (s : State) : Prop :=
  relay s = if triggered s then LOW else HIGH.

(** SIGUSR1 has asked for a reset; SIGCONT is delivered during the pass
    that serves it, after line 291 has cleared [triggered] and before line
    301 drives the relay HIGH. *)
Definition sigcont_race_schedule : list Event :=
  [ESignal SIGUSR1] ++ mains 11 ++ [ESignal SIGCONT] ++ mains 12.

(** ** More of the loop: what the passes keep, write and count *)

(** the four records a pass can write *)
Definition pass_records : list string :=
  [started_line "button"; started_line "signal";
   stopped_line "volume"; stopped_line "time"].

(** a pulse, or a pass that reads the reset button released *)
Definition pulse_or_released_pass (a : Action) : bool :=
  match a with
  | APulse => true
  | ATick _ HIGH => true
  | _ => false
  end.

(** [k] interrupts in a row *)
Definition clicks_arrive (k : nat) (s : State) : State :=
  Nat.iter k handleClick s.

(** ** More of [readConfig] and the command line of [main] *)

(** what each call of [fscanf] leads line 76-86 to assign: the word, and
    the value [val] holds after the call *)
Fixpoint assigned (items : list scan_item) (val : Z) : list (string * Z) :=
  match items with
  | [] => []
  | (buf, conv) :: rest =>
      let val' := match conv with Some v => v | None => val end in
      (buf, val') :: assigned rest val'
  end.

(** the value of the last line whose word is [key] *)
Fixpoint last_for (key : string) (lines : list (string * Z)) : option Z :=
  match lines with
  | [] => None
  | (buf, v) :: rest =>
      match last_for key rest with
      | Some x => Some x
      | None => if String.eqb key buf then Some v else None
      end
  end.

Definition or_else (o : option Z) (d : Z) : Z :=
  match o with Some v => v | None => d end.

(** the second conversion of the call succeeded *)
Definition converted (item : scan_item) : bool :=
  match snd item with Some _ => true | None => false end.

(** One result of [getopt(argc, argv, "l:c:r:t:vd")] other than -1: the
    option letter, with [atoi(optarg)] for the four that take an
    argument; [Opt_other] is the '?' of an unknown letter or a missing
    argument, for which the [switch] has no case. *)
Inductive Opt : Type :=
| Opt_l (v : Z)
| Opt_c (v : Z)
| Opt_t (v : Z)
| Opt_r (v : Z)
| Opt_d
| Opt_v
| Opt_other.

(** the globals the option loop writes: the configuration and
    [daemonise] *)
Record Settings : Type := mkSettings {
  scfg : Config;
  daemonise : Z
}.

(** the [switch] of lines 200-219 *)
Definition apply_opt (st : Settings) (o : Opt) : Settings :=
  match o with
  | Opt_l v => mkSettings (with_max_litres v (scfg st)) (daemonise st)
  | Opt_c v => mkSettings (with_clicks_per_litre v (scfg st)) (daemonise st)
  | Opt_t v =>
      mkSettings (with_time_limit (mul_int v 60) (scfg st)) (daemonise st)
  | Opt_r v => mkSettings (with_reset_period v (scfg st)) (daemonise st)
  | Opt_d => mkSettings (scfg st) 0
  | Opt_v =>
      mkSettings (with_verbose (add_int (verbose (scfg st)) 1) (scfg st))
        (daemonise st)
  | Opt_other => st
  end.

(** lines 196-220: [readConfig] on the initial globals, then the option
    loop *)
Definition configure (file : option (list scan_item)) (val0 : Z)
    (opts : list Opt) : option Settings :=
  c <- readConfig file val0 default_config ;;
  Some (fold_left apply_opt opts (mkSettings c 1)).

Definition sel_l (o : Opt) : option Z :=
  match o with Opt_l v => Some v | _ => None end.
Definition sel_c (o : Opt) : option Z :=
  match o with Opt_c v => Some v | _ => None end.
Definition sel_t (o : Opt) : option Z :=
  match o with Opt_t v => Some v | _ => None end.
Definition sel_r (o : Opt) : option Z :=
  match o with Opt_r v => Some v | _ => None end.
Definition is_d (o : Opt) : bool :=
  match o with Opt_d => true | _ => false end.
Definition is_v (o : Opt) : bool :=
  match o with Opt_v => true | _ => false end.

(** the argument of the last option that [sel] selects *)
Fixpoint last_opt (sel : Opt -> option Z) (opts : list Opt) : option Z :=
  match opts with
  | [] => None
  | o :: rest =>
      match last_opt sel rest with
      | Some x => Some x
      | None => sel o
      end
  end.

Definition minutes (o : option Z) : option Z :=
  option_map (fun v => mul_int v 60) o.

(** ** notifier/index.js

    The strings of the notifier are taken as ASCII text, as every record
    [writeState] produces is; on such text the regular expression [/\s/]
    matches the six characters below. *)

(** tab, line feed, vertical tab, form feed, carriage return, space *)
Definition is_space (a : ascii) : bool :=
  let n := nat_of_ascii a in
  (Nat.leb 9 n && Nat.leb n 13) || Nat.eqb n 32.

(** [contents.split(/\s/)]: cut at every whitespace character; an empty
    string between two of them, before the first or after the last is
    kept *)
Fixpoint split_ws (s : string) : list string :=
  match s with
  | EmptyString => [EmptyString]
  | String a rest =>
      if is_space a then EmptyString :: split_ws rest
      else match split_ws rest with
           | w :: ws => String a w :: ws
           | [] => [String a EmptyString]
           end
  end.

(** [content[i]] inside a template literal: a missing element prints as
    "undefined" *)
Definition js_field (content : list string) (i : nat) : string :=
  match nth_error content i with
  | Some w => w
  | None => "undefined"%string
  end.

(** the [message] of line 53 *)
Definition status_message (contents : string) : string :=
  let content := split_ws contents in
  ("*Pump Status Changed*" ++ nl ++ "Pump is now " ++ js_field content 0
   ++ nl ++ "Reason: " ++ js_field content 1)%string.

Definition stateFile : string := "waterfuse.state"%string.
Definition stateDir : string := "/var/run/waterfuse"%string.

(** The two module variables and the messages handed to [sendSlack],
    oldest first. *)
Record Notifier : Type := mkNotifier {
  fileContents : string;
  oldContents : string;
  sent : list string
}.

Definition notifier0 : Notifier :=
  mkNotifier EmptyString EmptyString [].

(** What the event loop runs: the listener of [fs.watch] with its two
    arguments, together with what [fs.readFile] then delivers ([None]: an
    error, [data] undefined); or the callback of [setInterval]. *)
Inductive NEvent : Type :=
| Watch (type : string) (fname : option string) (data : option string)
| Interval.

Definition nstep (e : NEvent) (n : Notifier) : option Notifier :=
  match e with
  | Watch type fname data =>
      if String.eqb type "change"
         && match fname with
            | Some f => negb (String.eqb f EmptyString)
                        && String.eqb f stateFile
            | None => false
            end
      then match data with
           | Some d => Some (mkNotifier d (oldContents n) (sent n))
           | None => None     (* data.toString() throws *)
           end
      else Some n
  | Interval =>
      if negb (String.eqb (oldContents n) (fileContents n))
      then Some (mkNotifier (fileContents n) (fileContents n)
                   (sent n ++ [status_message (fileContents n)]))
      else Some n
  end.

Fixpoint nrun (l : list NEvent) (n : Notifier) : option Notifier :=
  match l with
  | [] => Some n
  | e :: rest => n' <- nstep e n ;; nrun rest n'
  end.

(** the state file changed and was read as [d] *)
Definition changed (d : string) : NEvent :=
  Watch "change" (Some stateFile) (Some d).

(** an ASCII word: no whitespace, no character above 127 *)
Fixpoint word (w : string) : bool :=
  match w with
  | EmptyString => true
  | String a rest =>
      negb (is_space a) && Nat.ltb (nat_of_ascii a) 128 && word rest
  end.

(** ** The two paths of the state file *)

(** the path [writeState] opens (line 120) *)
Definition STATE_PATH : string := "/var/un/waterfuse/waterfuse.state"%string.

(** [path.join(dir, file)] for a directory without trailing slash and a
    plain file name *)
Definition path_join (dir file : string) : string :=
  (dir ++ "/" ++ file)%string.

(** files by path *)
Definition Files : Type := string -> option string.

(** [fopen(path, "w")], one [vfprintf] of [text], [fclose] *)
Definition write_file (path text : string) (fs : Files) : Files :=
  fun p => if String.eqb p path then Some text else fs p.

(** the file the notifier reads (line 39) *)
Definition notifier_reads (fs : Files) : option string :=
  fs (path_join stateDir stateFile).

(** a word of 1024 characters: one more than [buf] holds with its NUL *)
Definition long_word : string :=
  string_of_list_ascii (repeat "a"%char 1024).

(** [tie_state] on a system where the state file cannot be opened *)
Definition tie_state_no_statefile : State :=
  mkState 90450 0 false true 0 450 0 450 default_config HIGH
    [started_line "startup"] false.

(** * Properties *)

(** ** The two presentations of the loop body agree *)

Ltac simp_state :=
  cbv beta iota zeta delta
      [clicks reset triggered counting last_click_time last_click_count
       first_click_time total_clicks cfg relay statefile statefile_opens
       set_clicks set_reset set_triggered set_counting set_last_click_time
       set_last_click_count set_first_click_time set_total_clicks set_cfg
       digitalWrite writeState append_record showStats Level_eqb
       now seconds new_clicks total_litres litres seconds_from_first
       stop_reason set_now set_seconds set_new_clicks set_total_litres
       set_litres set_seconds_from_first set_stop_reason
       pc loc glob hw_time hw_button goto on_loc on_glob
       clicks_per_litre max_litres reset_period time_limit verbose
       negb andb option_map] in *.

Lemma main_pass_S (fuel : nat) (m : Machine) :
  main_pass (S fuel) m =
  (m' <- exec m ;;
   match pc m with
   | L337 => Some m'
   | _ => main_pass fuel m'
   end).
Proof. reflexivity. Qed.

Ltac simp_exec :=
  cbv beta iota zeta delta
      [exec
       clicks reset triggered counting last_click_time last_click_count
       first_click_time total_clicks cfg relay statefile statefile_opens
       set_clicks set_reset set_triggered set_counting set_last_click_time
       set_last_click_count set_first_click_time set_total_clicks set_cfg
       digitalWrite writeState append_record showStats Level_eqb
       now seconds new_clicks total_litres litres seconds_from_first
       stop_reason set_now set_seconds set_new_clicks set_total_litres
       set_litres set_seconds_from_first set_stop_reason
       pc loc glob hw_time hw_button goto on_loc on_glob
       clicks_per_litre max_litres reset_period time_limit verbose
       negb andb option_map].

Ltac simp_consts :=
  change (0 =? 0) with true;
  change (1 =? 0) with false;
  change (2 =? 0) with false;
  change (index reset_msg 1) with (Some "button"%string);
  change (index stop_msg 1) with (Some "volume"%string);
  change (index stop_msg 2) with (Some "time"%string).

(** run the machine forward, splitting on each test it meets *)
Ltac walk :=
  repeat first
    [ rewrite main_pass_S; simp_exec; simp_consts; simp_exec
    | match goal with
      | H : ?c = _ |- context [?c] => rewrite H
      end; simp_exec; simp_consts; simp_exec
    | match goal with
      | |- context [div_int ?a ?b] => destruct (div_int a b) eqn:?
      | |- context [div_uint ?a ?b] => destruct (div_uint a b) eqn:?
      | |- context [?a >? ?b] => destruct (a >? b) eqn:?
      | |- context [?a =? ?b] => destruct (a =? b) eqn:?
      | |- context [index ?a ?b] => destruct (index a b) eqn:?
      end; simp_exec; simp_consts; simp_exec ].

(** Left alone for one pass, the statement machine changes the globals
    exactly as [tick] does. *)
Lemma main_pass_is_tick (m : Machine) :
  pc m = L271 ->
  option_map glob (main_pass 40 m) = tick (hw_time m) (hw_button m) (glob m).
Proof.
  destruct m as [p l g t b]; cbn [pc glob hw_time hw_button]; intros ->.
  destruct g as [ck rs tr cn lt lc ft tc c ry sf so].
  unfold tick, reset_block, flow_block, stop_reason_of, showStats.
  destruct l as [l1 l2 l3 l4 l5 l6 l7], c as [cpl ml rp tl vb].
  destruct tr, b, cn, so; simp_state; walk; reflexivity.
Qed.

(** ** Arithmetic of the loop *)

Lemma to_uint_small (z : Z) : 0 <= z < UINT_MOD -> to_uint z = z.
Proof. intros H; unfold to_uint; now rewrite Z.mod_small. Qed.

Lemma to_int_small (z : Z) : int_range z -> to_int z = z.
Proof.
  unfold int_range, to_int, INT_MIN, INT_MAX, UINT_MOD; intros H.
  rewrite Z.mod_small; lia.
Qed.

Lemma to_int_range (z : Z) : int_range (to_int z).
Proof.
  unfold int_range, to_int, INT_MIN, INT_MAX, UINT_MOD.
  pose proof (Z.mod_pos_bound (z + 2 ^ 31) (2 ^ 32) ltac:(lia)); lia.
Qed.

Lemma to_uint_range (z : Z) : uint_range (to_uint z).
Proof. unfold uint_range, to_uint, UINT_MOD; apply Z.mod_pos_bound; lia. Qed.

Lemma div_int_pos (a b : Z) : 0 < b -> div_int a b = Some (Z.quot a b).
Proof.
  intros H; unfold div_int.
  destruct (b =? 0) eqn:E; [lia|].
  destruct (b =? -1) eqn:E'; [lia|].
  now rewrite andb_false_r.
Qed.

Lemma div_uint_cpl (a : Z) (c : Config) :
  valid_cpl c ->
  div_uint a (to_uint (clicks_per_litre c)) =
  Some (a / to_uint (clicks_per_litre c)).
Proof.
  unfold valid_cpl, INT_MAX; intros H; unfold div_uint.
  rewrite to_uint_small by (unfold UINT_MOD; lia).
  destruct (clicks_per_litre c =? 0) eqn:E; [lia|reflexivity].
Qed.

Ltac simp_rec :=
  cbn [clicks reset triggered counting last_click_time last_click_count
       first_click_time total_clicks cfg relay statefile statefile_opens
       set_clicks set_reset set_triggered set_counting set_last_click_time
       set_last_click_count set_first_click_time set_total_clicks set_cfg
       digitalWrite writeState append_record after_read
       clicks_per_litre max_litres reset_period time_limit verbose
       with_clicks_per_litre with_max_litres with_reset_period
       with_time_limit with_verbose
       negb andb] in *.

Lemma writeState_opens (line : string) (s : State) :
  statefile_opens s = true -> writeState line s = Some (append_record line s).
Proof. intros H; unfold writeState; now rewrite H. Qed.

Lemma writeState_fails (line : string) (s : State) :
  statefile_opens s = false -> writeState line s = None.
Proof. intros H; unfold writeState; now rewrite H. Qed.

(** A pass that starts with [triggered] clear and no reset pending goes
    straight from the read to the flow logic. *)
Lemma tick_no_reset (t : Z) (b : Level) (s : State) :
  valid_cpl (cfg s) -> triggered s = false -> reset s = 0 ->
  tick t b s =
  flow_block t (sub_int t (last_click_time s)) (new_clicks_of s)
    (litres_of s) (after_read s).
Proof.
  intros Hc Ht Hr; unfold tick.
  simp_rec.
  rewrite div_int_pos by apply Hc.
  rewrite div_uint_cpl by assumption.
  rewrite Ht; cbn [andb]; simp_rec; rewrite Hr; reflexivity.
Qed.

(** A pass that finds [reset] set, or sets it from the button, runs the
    reset block and then finds nothing to do in the flow logic. *)
Lemma tick_reset (t : Z) (b : Level) (s : State) (r : Z) :
  valid_cpl (cfg s) ->
  statefile_opens s = true ->
  r = (if triggered s && Level_eqb b LOW then 1 else reset s) ->
  r = 1 \/ r = 2 ->
  tick t b s =
  Some (mkState 0 0 false false t 0 t
          (add_int (total_clicks s) (new_clicks_of s)) (cfg s) HIGH
          (statefile s ++
             [started_line (if r =? 1 then "button" else "signal")]) (statefile_opens s)).
Proof.
  intros Hc Ho Hr Hv; unfold tick.
  simp_rec.
  rewrite div_int_pos by apply Hc.
  rewrite div_uint_cpl by assumption.
  destruct (triggered s) eqn:Ht; destruct b; cbn [andb Level_eqb] in *;
    unfold reset_block, flow_block; simp_rec.
  1: subst r.
  2-4: symmetry in Hr; rewrite Hr; destruct Hv as [E | E]; rewrite E.
  all: change (index reset_msg 1) with (Some "button"%string);
    change (index reset_msg 2) with (Some "signal"%string);
    cbn [negb Z.eqb]; cbn iota beta;
    rewrite writeState_opens by exact Ho; simp_rec; reflexivity.
Qed.

(** ** The flow logic, path by path *)

Lemma phase_Counting (s : State) :
  phase s = Counting <-> triggered s = false /\ counting s = true.
Proof.
  unfold phase; destruct (triggered s), (counting s); split;
    intros H; try discriminate; try tauto; destruct H; discriminate.
Qed.

Lemma phase_Triggered (s : State) : phase s = Triggered <-> triggered s = true.
Proof.
  unfold phase; destruct (triggered s), (counting s); split;
    intros H; try discriminate; reflexivity.
Qed.

Lemma phase_Idle (s : State) :
  phase s = Idle <-> triggered s = false /\ counting s = false.
Proof.
  unfold phase; destruct (triggered s), (counting s); split;
    intros H; try discriminate; try tauto; destruct H; discriminate.
Qed.

(** Counting, new pulses, a threshold exceeded: lines 312-326. *)
Lemma flow_trip (t secs nc l k : Z) (s : State) :
  valid_cpl (cfg s) -> statefile_opens s = true ->
  triggered s = false -> counting s = true ->
  nc <> 0 ->
  stop_reason_of l (sub_int t (first_click_time s)) (cfg s) = k ->
  k = 1 \/ k = 2 ->
  flow_block t secs nc l s =
  Some (digitalWrite LOW
          (append_record (stopped_line (stop_text k))
             (set_triggered true (set_last_click_time t s)))).
Proof.
  intros Hc Ho Ht Hn Hnc Hk Hv; unfold flow_block.
  rewrite Ht, Hn; cbn [negb].
  destruct (nc =? 0) eqn:E; [lia|].
  simp_rec; rewrite Hk.
  destruct Hv as [-> | ->]; cbn [negb Z.eqb];
    [change (index stop_msg 1) with (Some "volume"%string)
    |change (index stop_msg 2) with (Some "time"%string)];
    cbn iota beta;
    rewrite writeState_opens by exact Ho;
    unfold showStats; simp_rec;
    rewrite div_int_pos by apply Hc; reflexivity.
Qed.

(** The same pass when the state file cannot be opened: line 121 hands the
    null stream to [vfprintf] and the pass ends there, before the statistics
    and before the relay is driven. *)
Lemma flow_trip_dies (t secs nc l k : Z) (s : State) :
  statefile_opens s = false ->
  triggered s = false -> counting s = true ->
  nc <> 0 ->
  stop_reason_of l (sub_int t (first_click_time s)) (cfg s) = k ->
  k = 1 \/ k = 2 ->
  flow_block t secs nc l s = None.
Proof.
  intros Ho Ht Hn Hnc Hk Hv; unfold flow_block.
  rewrite Ht, Hn; cbn [negb].
  destruct (nc =? 0) eqn:E; [lia|].
  simp_rec; rewrite Hk.
  destruct Hv as [-> | ->]; cbn [negb Z.eqb];
    [change (index stop_msg 1) with (Some "volume"%string)
    |change (index stop_msg 2) with (Some "time"%string)];
    cbn iota beta;
    rewrite writeState_fails by exact Ho; reflexivity.
Qed.

(** Counting, new pulses, no threshold exceeded: line 312 alone. *)
Lemma flow_continue (t secs nc l : Z) (s : State) :
  triggered s = false -> counting s = true -> nc <> 0 ->
  stop_reason_of l (sub_int t (first_click_time s)) (cfg s) = 0 ->
  flow_block t secs nc l s = Some (set_last_click_time t s).
Proof.
  intros Ht Hn Hnc Hk; unfold flow_block.
  rewrite Ht, Hn; cbn [negb].
  destruct (nc =? 0) eqn:E; [lia|].
  simp_rec; rewrite Hk; reflexivity.
Qed.

(** Counting, no new pulse, quiet for longer than [reset_period]:
    lines 307-309. *)
Lemma flow_stall (t secs l : Z) (s : State) :
  triggered s = false -> counting s = true ->
  secs > reset_period (cfg s) ->
  flow_block t secs 0 l s =
  Some (set_last_click_count 0 (set_clicks 0 (set_counting false s))).
Proof.
  intros Ht Hn Hs; unfold flow_block.
  rewrite Ht, Hn; cbn [negb].
  change (0 =? 0) with true; cbn iota.
  destruct (secs >? reset_period (cfg s)) eqn:E; [reflexivity|lia].
Qed.

(** Without a new pulse the flow logic never sets [triggered], never
    writes the state file and never drives the relay. *)
Lemma flow_quiet (t secs l : Z) (s : State) :
  exists s', flow_block t secs 0 l s = Some s' /\
    triggered s' = triggered s /\ relay s' = relay s /\
    statefile s' = statefile s.
Proof.
  unfold flow_block.
  destruct (triggered s) eqn:Ht; cbn [negb]; [eauto|].
  destruct (counting s); change (0 =? 0) with true; cbn [negb];
    [destruct (secs >? reset_period (cfg s))|]; eauto.
Qed.

Lemma stop_reason_of_time (l e : Z) (c : Config) :
  e > time_limit c -> stop_reason_of l e c = 2.
Proof.
  intros H; unfold stop_reason_of.
  destruct (e >? time_limit c) eqn:E; [reflexivity|lia].
Qed.

Lemma stop_reason_of_volume (l e : Z) (c : Config) :
  l > to_uint (max_litres c) -> e <= time_limit c -> stop_reason_of l e c = 1.
Proof.
  intros H1 H2; unfold stop_reason_of.
  destruct (e >? time_limit c) eqn:E; [lia|].
  destruct (l >? to_uint (max_litres c)) eqn:E'; [reflexivity|lia].
Qed.

Lemma stop_reason_of_none (l e : Z) (c : Config) :
  l <= to_uint (max_litres c) -> e <= time_limit c -> stop_reason_of l e c = 0.
Proof.
  intros H1 H2; unfold stop_reason_of.
  destruct (e >? time_limit c) eqn:E; [lia|].
  destruct (l >? to_uint (max_litres c)) eqn:E'; [lia|reflexivity].
Qed.

(** ** Threshold trips *)

(** C1 as the code has it: when a pass in the Counting phase with new
    pulses and no reset request pending finds both the volume and the time
    threshold exceeded, and the state file can be opened, it triggers,
    records "stopped<TAB>time" and opens the relay: the time test of line
    318 runs after the volume test of line 315 and overwrites
    [stop_reason]. *)
Theorem tie_break_records_time (t : Z) (b : Level) (s : State) :
  valid_cpl (cfg s) ->
  statefile_opens s = true ->
  phase s = Counting ->
  reset s = 0 ->
  new_clicks_of s <> 0 ->
  litres_of s > to_uint (max_litres (cfg s)) ->
  sub_int t (first_click_time s) > time_limit (cfg s) ->
  exists s',
    tick t b s = Some s' /\
    phase s' = Triggered /\
    relay s' = LOW /\
    statefile s' =
      statefile s ++
      [("stopped" ++ String "009"%char
          ("time" ++ String "010"%char EmptyString))%string].
Proof.
  intros Hc Ho Hp Hr Hn _ Ht.
  apply phase_Counting in Hp as [Htr Hcn].
  rewrite tick_no_reset by assumption.
  rewrite flow_trip with (k := 2); try assumption.
  - eexists; split; [reflexivity|]. repeat split.
  - apply stop_reason_of_time; exact Ht.
  - now right.
Qed.

Lemma tie_break_records_time_witness :
  exists s',
    tick 1000 HIGH tie_state = Some s' /\
    phase s' = Triggered /\
    relay s' = LOW /\
    statefile s' =
      statefile tie_state ++
      [("stopped" ++ String "009"%char
          ("time" ++ String "010"%char EmptyString))%string].
Proof.
  apply (tie_break_records_time 1000 HIGH tie_state); vm_compute;
    try reflexivity; try (split; [reflexivity | discriminate]);
    discriminate.
Defined.

(** C1, refuted as stated: in [tie_state] both thresholds are exceeded on
    the same pass, and the record written is "stopped<TAB>time", not
    "stopped<TAB>volume". *)
Lemma tie_break_volume_refuted :
  phase tie_state = Counting /\
  new_clicks_of tie_state <> 0 /\
  litres_of tie_state > to_uint (max_litres (cfg tie_state)) /\
  sub_int 1000 (first_click_time tie_state) > time_limit (cfg tie_state) /\
  exists s',
    tick 1000 HIGH tie_state = Some s' /\
    phase s' = Triggered /\
    statefile s' =
      [("started" ++ String "009"%char
          ("startup" ++ String "010"%char EmptyString))%string;
       ("stopped" ++ String "009"%char
          ("time" ++ String "010"%char EmptyString))%string] /\
    statefile s' <>
      statefile tie_state ++
      [("stopped" ++ String "009"%char
          ("volume" ++ String "010"%char EmptyString))%string].
Proof.
  repeat split; try (vm_compute; congruence).
  eexists; split; [vm_compute; reflexivity|].
  repeat split. vm_compute; discriminate.
Qed.

(** [tie_state] is what the program reaches from start-up when 450 pulses
    arrive before the pass at time 0 and 90000 more before the pass at
    time 1000. *)
Lemma tie_state_reached :
  play (pulses 450 ++ [ATick 0 HIGH] ++ pulses 90000) (startup default_config)
  = Some tie_state.
Proof. vm_compute; reflexivity. Qed.

(** C2 as the code has it: with [max_litres = 10] and
    [clicks_per_litre = 100], a Counting pass with new pulses, no reset
    request pending and the time limit not exceeded trips on volume exactly
    when the counter has reached 1100 (the first count whose floor-divided
    litres, 11, exceed 10): it then records "stopped<TAB>volume" and opens
    the relay, provided the state file can be opened; below 1100, and so at
    1000 and at 1001, the pass leaves the episode Counting, writes nothing
    and does not touch the relay. *)
Theorem volume_trip_threshold (t : Z) (b : Level) (s : State) :
  clicks_per_litre (cfg s) = 100 ->
  max_litres (cfg s) = 10 ->
  (1100 <= clicks s -> statefile_opens s = true) ->
  phase s = Counting ->
  reset s = 0 ->
  new_clicks_of s <> 0 ->
  0 <= clicks s ->
  sub_int t (first_click_time s) <= time_limit (cfg s) ->
  exists s',
    tick t b s = Some s' /\
    phase s' = (if 1100 <=? clicks s then Triggered else Counting) /\
    relay s' = (if 1100 <=? clicks s then LOW else relay s) /\
    statefile s' =
      statefile s ++
      (if 1100 <=? clicks s
       then [("stopped" ++ String "009"%char
          ("volume" ++ String "010"%char EmptyString))%string]
       else []).
Proof.
  intros Hcpl Hmax Ho Hp Hr Hn Hck Ht.
  assert (Hc : valid_cpl (cfg s)) by (unfold valid_cpl, INT_MAX; lia).
  apply phase_Counting in Hp as [Htr Hcn].
  rewrite tick_no_reset by assumption.
  assert (Hl : litres_of s = clicks s / 100).
  { unfold litres_of; rewrite Hcpl; reflexivity. }
  assert (Hm : to_uint (max_litres (cfg s)) = 10).
  { rewrite Hmax; reflexivity. }
  destruct (1100 <=? clicks s) eqn:E.
  - apply Z.leb_le in E.
    rewrite flow_trip with (k := 1); try assumption.
    + eexists; split; [reflexivity|]; repeat split.
    + exact (Ho E).
    + apply stop_reason_of_volume; [|exact Ht].
      simp_rec; rewrite Hl, Hm.
      assert (11 <= clicks s / 100) by (apply Z.div_le_lower_bound; lia); lia.
    + now left.
  - apply Z.leb_gt in E.
    rewrite flow_continue; try assumption.
    + eexists; split; [reflexivity|].
      rewrite app_nil_r; repeat split; apply phase_Counting; simp_rec; auto.
    + apply stop_reason_of_none; [|exact Ht].
      simp_rec; rewrite Hl, Hm.
      assert (clicks s / 100 < 11) by (apply Z.div_lt_upper_bound; lia); lia.
Qed.

Lemma volume_trip_threshold_witness :
  exists s',
    tick 2 HIGH after_1100 = Some s' /\
    phase s' = Triggered /\
    relay s' = LOW /\
    statefile s' =
      [("started" ++ String "009"%char
          ("startup" ++ String "010"%char EmptyString))%string;
       ("stopped" ++ String "009"%char
          ("volume" ++ String "010"%char EmptyString))%string].
Proof.
  apply (volume_trip_threshold 2 HIGH after_1100); vm_compute;
    solve [reflexivity | discriminate].
Defined.

(** C2, refuted as stated: from start-up with the example configuration,
    one pulse opens the episode and 1000 more follow, 1001 in all and no
    reset; the pass that reads them computes 10 litres, stays Counting,
    leaves the relay closed and writes no "stopped<TAB>volume" record. *)
Lemma volume_1001_does_not_trip :
  play (pulses 1 ++ [ATick 1 HIGH] ++ pulses 1000) (startup volume_config)
    = Some after_1001 /\
  clicks after_1001 = 1001 /\
  litres_of after_1001 = 10 /\
  exists s',
    tick 2 HIGH after_1001 = Some s' /\
    phase s' = Counting /\
    relay s' = HIGH /\
    statefile s' =
      [("started" ++ String "009"%char
          ("startup" ++ String "010"%char EmptyString))%string] /\
    ~ In ("stopped" ++ String "009"%char
            ("volume" ++ String "010"%char EmptyString))%string
         (statefile s').
Proof.
  split; [vm_compute; reflexivity|].
  split; [reflexivity|].
  split; [reflexivity|].
  eexists; split; [vm_compute; reflexivity|].
  repeat split.
  cbn [statefile In]; intros [H | []]; vm_compute in H; discriminate.
Qed.

(** [after_1100] is the same run carried on to 1100 pulses. *)
Lemma after_1100_reached :
  play (pulses 1 ++ [ATick 1 HIGH] ++ pulses 1099) (startup volume_config)
  = Some after_1100.
Proof. vm_compute; reflexivity. Qed.




(** From start-up, 61 passes (seconds 1000 to 1060) and one more pulse
    leave the episode Counting with nothing written; the 62nd pass, at
    second 1061, trips on time. *)
Lemma steady_minute :
  play (steady 61 1000 ++ [APulse])
    (startup (with_time_limit 60 default_config))
    = Some minute_state
  /\ play (steady 62 1000) (startup (with_time_limit 60 default_config))
    = Some (mkState 62 0 true true 1061 62 1000 62
              (with_time_limit 60 default_config) LOW
              [started_line "startup"; stopped_line "time"] true).
Proof. split; vm_compute; reflexivity. Qed.

(** ** Stall recovery and resets *)

(** C5: a pass in the Counting phase, with no reset request pending, that
    finds no new pulse and more than [reset_period] seconds since the last
    one clears the counter and its baseline and leaves the phase Idle; the
    relay is not driven and the state file is not written. *)
Theorem stall_reset_is_silent (t : Z) (b : Level) (s : State) :
  valid_cpl (cfg s) ->
  phase s = Counting ->
  reset s = 0 ->
  new_clicks_of s = 0 ->
  sub_int t (last_click_time s) > reset_period (cfg s) ->
  exists s',
    tick t b s = Some s' /\
    phase s' = Idle /\
    clicks s' = 0 /\
    last_click_count s' = 0 /\
    relay s' = relay s /\
    statefile s' = statefile s.
Proof.
  intros Hc Hp Hr Hn Hs.
  apply phase_Counting in Hp as [Htr Hcn].
  rewrite tick_no_reset by assumption.
  rewrite Hn, flow_stall by assumption.
  eexists; split; [reflexivity|].
  repeat split. apply phase_Idle; simp_rec; auto.
Qed.

Lemma stall_reset_is_silent_witness :
  exists s',
    tick 701 HIGH stalled_state = Some s' /\
    phase s' = Idle /\
    clicks s' = 0 /\
    last_click_count s' = 0 /\
    relay s' = relay stalled_state /\
    statefile s' = statefile stalled_state.
Proof.
  apply (stall_reset_is_silent 701 HIGH stalled_state); vm_compute;
    try reflexivity; split; [reflexivity | discriminate].
Defined.

(** With a reset request pending the same pass is not silent: the reset
    block runs first and writes its "started" record. *)
Lemma stall_with_reset_pending_writes :
  tick 701 HIGH (set_reset 2 stalled_state) =
  Some (mkState 0 0 false false 701 0 701 37 default_config HIGH
          [started_line "startup"; started_line "signal"] true).
Proof. vm_compute; reflexivity. Qed.

(** A pass that has to serve a reset while the state file cannot be
    opened traps at the [writeState] of line 299. *)
Lemma tick_reset_dies (t : Z) (b : Level) (s : State) :
  valid_cpl (cfg s) ->
  statefile_opens s = false ->
  (triggered s = true /\ b = LOW) \/ reset s = 1 \/ reset s = 2 ->
  tick t b s = None.
Proof.
  intros Hc Ho H; unfold tick; simp_rec.
  rewrite div_int_pos by apply Hc.
  rewrite div_uint_cpl by assumption.
  destruct (triggered s) eqn:Ht; destruct b; cbn [andb Level_eqb] in *;
    unfold reset_block; simp_rec.
  1: change (index reset_msg 1) with (Some "button"%string);
     cbn [negb Z.eqb]; cbn iota beta;
     rewrite writeState_fails by exact Ho; reflexivity.
  all: destruct H as [[? ?] | [E | E]]; try discriminate; rewrite E;
    change (index reset_msg 1) with (Some "button"%string);
    change (index reset_msg 2) with (Some "signal"%string);
    cbn [negb Z.eqb]; cbn iota beta;
    rewrite writeState_fails by exact Ho; reflexivity.
Qed.

Lemma tick_reset_after (t : Z) (b : Level) (s : State) :
  valid_cpl (cfg s) ->
  statefile_opens s = true ->
  (triggered s = true /\ b = LOW) \/ reset s = 1 \/ reset s = 2 ->
  exists s', tick t b s = Some s' /\ after_reset t (reset_source b s) s s'.
Proof.
  intros Hc Ho H.
  set (r := if triggered s && Level_eqb b LOW then 1 else reset s).
  assert (Hv : r = 1 \/ r = 2).
  { subst r; destruct H as [[-> ->] | H]; [now left|].
    destruct (triggered s && Level_eqb b LOW); [now left | exact H]. }
  rewrite (tick_reset t b s r Hc Ho eq_refl Hv).
  eexists; split; [reflexivity|].
  assert (Hw : (if r =? 1 then "button"%string else "signal"%string)
               = reset_source b s).
  { unfold reset_source; subst r.
    destruct (triggered s && Level_eqb b LOW); reflexivity. }
  rewrite Hw; unfold after_reset; simp_rec; repeat split.
Qed.





(** ** Pauses in the flow *)

Lemma started_is_not_stopped (a b : string) :
  started_line a <> stopped_line b.
Proof. unfold started_line, stopped_line; cbn; discriminate. Qed.

(** A pass that starts with [triggered] clear and finds no new pulse
    ends with [triggered] clear, does not open the relay and writes no
    "stopped" record. *)
Lemma quiet_pass (t : Z) (b : Level) (s : State) :
  valid_cpl (cfg s) ->
  reset s = 0 \/ reset s = 1 \/ reset s = 2 ->
  triggered s = false ->
  new_clicks_of s = 0 ->
  (exists s',
     tick t b s = Some s' /\
     triggered s' = false /\
     (relay s' = relay s \/ relay s' = HIGH) /\
     forall why,
       ~ In (stopped_line why)
           (skipn (List.length (statefile s)) (statefile s'))) \/
  (tick t b s = None /\ reset s <> 0 /\ statefile_opens s = false).
Proof.
  intros Hc Hr Ht Hn.
  destruct Hr as [Hr | Hr].
  - left; rewrite tick_no_reset by assumption.
    rewrite Hn.
    destruct (flow_quiet t (sub_int t (last_click_time s)) (litres_of s)
                (after_read s)) as (s' & Hs & H1 & H2 & H3).
    exists s'; split; [exact Hs|]; simp_rec.
    split; [congruence|]; split; [left; exact H2|].
    intros why; rewrite H3, skipn_all; intros [].
  - destruct (statefile_opens s) eqn:Ho;
      [left | right; split; [now apply tick_reset_dies; auto|];
              split; [lia | reflexivity]].
    destruct (tick_reset_after t b s Hc Ho) as (s' & Hs & Ha); [auto|].
    exists s'; split; [exact Hs|].
    destruct Ha as (Hp & _ & _ & _ & _ & _ & Hy & Hf).
    apply phase_Idle in Hp as [Hp _].
    split; [exact Hp|]; split; [right; exact Hy|].
    intros why; rewrite Hf, skipn_app, skipn_all, Nat.sub_diag.
    cbn; intros [H | []]; exact (started_is_not_stopped _ _ H).
Qed.

(** C9: the threshold tests sit in the branch of line 311, entered only
    with a nonzero [new_clicks].  A pass of a Counting episode that finds
    no new pulse therefore never triggers, whatever the time of the pass:
    the pass completes with [triggered] clear, the relay not opened and no
    "stopped" record written; the one pass that does not complete is the
    one that has a pending reset to record and cannot open the state
    file, and it stops at that write. *)
Theorem no_pulse_no_trigger (t : Z) (b : Level) (s : State) :
  valid_cpl (cfg s) ->
  reset s = 0 \/ reset s = 1 \/ reset s = 2 ->
  phase s = Counting ->
  new_clicks_of s = 0 ->
  (exists s',
     tick t b s = Some s' /\
     phase s' <> Triggered /\
     (relay s' = relay s \/ relay s' = HIGH) /\
     forall why,
       ~ In (stopped_line why)
           (skipn (List.length (statefile s)) (statefile s'))) \/
  (tick t b s = None /\ reset s <> 0 /\ statefile_opens s = false).
Proof.
  intros Hc Hr Hp Hn.
  apply phase_Counting in Hp as [Ht _].
  destruct (quiet_pass t b s Hc Hr Ht Hn) as [(s' & Hs & H1 & H2) | H];
    [left | right; exact H].
  exists s'; split; [exact Hs|]; split; [|exact H2].
  rewrite phase_Triggered; congruence.
Qed.

Lemma no_pulse_no_trigger_witness :
  sub_int 5000 (first_click_time paused_state)
    > time_limit (cfg paused_state) /\
  exists s',
    tick 5000 HIGH paused_state = Some s' /\
    phase s' <> Triggered /\
    (relay s' = relay paused_state \/ relay s' = HIGH) /\
    forall why,
      ~ In (stopped_line why)
          (skipn (List.length (statefile paused_state)) (statefile s')).
Proof.
  split; [vm_compute; reflexivity|].
  destruct (no_pulse_no_trigger 5000 HIGH paused_state) as [H | (_ & _ & H)].
  - vm_compute; split; [reflexivity | discriminate].
  - left; reflexivity.
  - reflexivity.
  - reflexivity.
  - exact H.
  - discriminate H.
Defined.

(** The converse reading of C9: a pass that sets [triggered] found a
    nonzero, hence strictly positive, number of new pulses, in the Counting
    phase and with no reset pending. *)
Lemma trigger_needs_pulses (t : Z) (b : Level) (s s' : State) :
  valid_cpl (cfg s) ->
  reset s = 0 \/ reset s = 1 \/ reset s = 2 ->
  triggered s = false ->
  tick t b s = Some s' ->
  triggered s' = true ->
  0 < sub_uint (clicks s) (to_uint (last_click_count s)) /\
  phase s = Counting /\ reset s = 0.
Proof.
  intros Hc Hr Ht Hs Ht'.
  assert (Hn : new_clicks_of s <> 0).
  { intros Hn.
    destruct (quiet_pass t b s Hc Hr Ht Hn)
      as [(s2 & Hs2 & H2 & _) | (Hs2 & _)]; congruence. }
  split.
  - pose proof (to_uint_range (clicks s - to_uint (last_click_count s))) as R.
    unfold uint_range in R; fold (sub_uint (clicks s) (to_uint (last_click_count s))) in R.
    destruct (Z.eq_dec (sub_uint (clicks s) (to_uint (last_click_count s))) 0)
      as [E | E]; [|lia].
    exfalso; apply Hn; unfold new_clicks_of; rewrite E; reflexivity.
  - destruct Hr as [Hr | Hr].
    + split; [|exact Hr].
      rewrite tick_no_reset in Hs by assumption.
      unfold flow_block in Hs; simp_rec; rewrite Ht in Hs; cbn [negb] in Hs.
      apply phase_Counting; split; [exact Ht|].
      destruct (counting s); [reflexivity|].
      destruct (new_clicks_of s =? 0); cbn [negb] in Hs;
        inversion Hs; subst s'; simp_rec; congruence.
    + destruct (statefile_opens s) eqn:Ho.
      * destruct (tick_reset_after t b s Hc Ho) as (s2 & Hs2 & Ha); [auto|].
        destruct Ha as (Hp & _). apply phase_Idle in Hp as [Hp _].
        congruence.
      * rewrite tick_reset_dies in Hs by auto; discriminate.
Qed.

(** ** readConfig *)




Lemma readConfig_fits (items : list scan_item) (val0 : Z) (c : Config) :
  forallb fits items = true ->
  readConfig (Some items) val0 c = Some (scan_loop items val0 c).
Proof. intros H; unfold readConfig; now rewrite H. Qed.



(** A line whose value does not convert still assigns: the field named by
    the key receives whatever [val] held from the line before. *)
Lemma readConfig_stale_value :
  readConfig (Some [("max_litres", Some 7); ("reset_period", None)]%string)
    0 default_config
  = Some (with_reset_period 7 (with_max_litres 7 default_config)).
Proof. reflexivity. Qed.

(** A word of 1024 characters or more, wherever it stands in the file and
    whatever it is, overruns [buf]: the call does not return a
    configuration. *)
Lemma readConfig_overrun (before after : list scan_item) (w : string)
    (conv : option Z) (val0 : Z) (c : Config) :
  (BUF_SIZE <= String.length w)%nat ->
  readConfig (Some (before ++ (w, conv) :: after)) val0 c = None.
Proof.
  intros H; unfold readConfig.
  rewrite forallb_app; cbn [forallb].
  assert (E : fits (w, conv) = false).
  { unfold fits; cbn [fst]; now apply Nat.ltb_ge. }
  rewrite E, andb_false_r; reflexivity.
Qed.

(** ** Pulses and passes *)

(** The five ways out of the flow logic. *)
Lemma flow_block_cases (t secs nc l : Z) (s s' : State) :
  flow_block t secs nc l s = Some s' ->
  s' = s \/
  s' = set_last_click_count 0 (set_clicks 0 (set_counting false s)) \/
  s' = set_last_click_time t s \/
  (triggered s = false /\
   exists why,
     s' = digitalWrite LOW
            (append_record (stopped_line why)
               (set_triggered true (set_last_click_time t s)))) \/
  s' = set_last_click_time t
         (set_first_click_time t (set_counting true s)).
Proof.
  unfold flow_block; intros H.
  destruct (triggered s) eqn:Ht; cbn [negb] in H; [inversion H; auto|].
  destruct (counting s).
  - destruct (nc =? 0).
    + destruct (secs >? reset_period (cfg s)); inversion H; auto.
    + simp_rec.
      destruct (negb (stop_reason_of l
                  (sub_int t (first_click_time s)) (cfg s) =? 0)).
      * destruct (index stop_msg _) as [why|]; [|discriminate].
        destruct (writeState _ _) as [s1|] eqn:Ew; [|discriminate].
        unfold writeState in Ew; simp_rec.
        destruct (statefile_opens s); [|discriminate].
        inversion Ew; subst s1; clear Ew.
        destruct (showStats _); [|discriminate].
        inversion H; right; right; right; left; split; [reflexivity|].
        now exists why.
      * inversion H; auto.
  - destruct (negb (nc =? 0)); inversion H; auto 6.
Qed.

(** The one way out of the reset block. *)
Lemma reset_block_result (t : Z) (s s' : State) :
  reset_block t s = Some s' ->
  exists why,
    s' = mkState 0 0 false false t 0 t (total_clicks s) (cfg s) HIGH
           (statefile s ++ [started_line why]) (statefile_opens s).
Proof.
  unfold reset_block, writeState; simp_rec; intros H.
  destruct (index reset_msg (reset s)) as [why|]; [|discriminate].
  destruct (statefile_opens s) eqn:Ho; [|discriminate].
  inversion H; exists why; rewrite <- Ho; reflexivity.
Qed.

(** A pass is the read of lines 281-283, possibly the reset block, then
    the flow logic. *)
Lemma tick_cases (t : Z) (b : Level) (s s' : State) :
  tick t b s = Some s' ->
  exists s1 nc secs l,
    flow_block t secs nc l s1 = Some s' /\
    ((exists r, s1 = set_reset r (after_read s)) \/
     (exists why,
        s1 = mkState 0 0 false false t 0 t
               (add_int (total_clicks s) (new_clicks_of s)) (cfg s) HIGH
               (statefile s ++ [started_line why]) (statefile_opens s))).
Proof.
  unfold tick; simp_rec; intros H.
  destruct (div_int _ _); [|discriminate].
  destruct (div_uint _ _) as [l|]; [|discriminate].
  fold (new_clicks_of s) in H; fold (after_read s) in H.
  set (s0 := if triggered s && Level_eqb b LOW
             then set_reset 1 (after_read s) else after_read s) in H.
  assert (H0 : exists r, s0 = set_reset r (after_read s)).
  { subst s0; destruct (triggered s && Level_eqb b LOW).
    - now exists 1.
    - exists (reset s); reflexivity. }
  destruct (negb (reset s0 =? 0)).
  - destruct (reset_block t s0) as [s1|] eqn:E; [|discriminate].
    apply reset_block_result in E as (why & E).
    destruct H0 as (r & H0); rewrite H0 in E; simp_rec.
    exists s1, 0, (sub_int t (last_click_time s)), l.
    split; [exact H|]. right; exists why; exact E.
  - exists s0, (new_clicks_of s), (sub_int t (last_click_time s)), l.
    split; [exact H|]. left; exact H0.
Qed.

(** A pass leaves the counter and its baseline equal: either both zeroed,
    or the baseline moved up to the counter. *)
Lemma tick_counter (t : Z) (b : Level) (s s' : State) :
  tick t b s = Some s' ->
  (clicks s' = clicks s /\ last_click_count s' = to_int (clicks s)) \/
  (clicks s' = 0 /\ last_click_count s' = 0).
Proof.
  intros H; apply tick_cases in H as (s1 & nc & secs & l & Hf & Hs).
  apply flow_block_cases in Hf.
  destruct Hs as [(r & ->) | (why & ->)];
    destruct Hf as [-> | [-> | [-> | [(_ & ? & ->) | ->]]]];
    simp_rec; auto.
Qed.

Lemma signal_counter (sig : Signal) (s s' : State) :
  signalHandler sig s = Some s' ->
  clicks s' = clicks s /\ last_click_count s' = last_click_count s.
Proof.
  destruct sig; unfold signalHandler; intros H;
    try (inversion H; subst; auto; fail).
  - destruct (readConfig _ _ _); inversion H; subst; auto.
  - destruct (showStats s); inversion H; subst; auto.
Qed.

Lemma count_pulses_nonneg (l : list Action) : 0 <= count_pulses l.
Proof. induction l as [| [] l IH]; cbn [count_pulses]; lia. Qed.

Lemma count_pulses_app (l1 l2 : list Action) :
  count_pulses (l1 ++ l2) = count_pulses l1 + count_pulses l2.
Proof. induction l1 as [| [] l1 IH]; cbn [count_pulses app]; lia. Qed.

(** with the counter in order, line 281 reads exactly the pending pulses *)
Lemma new_clicks_of_pending (s : State) (bound : Z) :
  counter_ok s bound -> bound <= INT_MAX -> new_clicks_of s = pending s.
Proof.
  unfold counter_ok, INT_MAX; intros [[H0 H1] H2] Hb.
  unfold new_clicks_of, pending, sub_uint.
  rewrite (to_uint_small (last_click_count s)) by (unfold UINT_MOD; lia).
  rewrite to_uint_small by (unfold UINT_MOD; lia).
  apply to_int_small; unfold int_range, INT_MIN, INT_MAX; lia.
Qed.

(** and the pass leaves nothing pending *)
Lemma tick_counter_ok (t : Z) (b : Level) (s s' : State) (bound : Z) :
  counter_ok s bound -> bound <= INT_MAX ->
  tick t b s = Some s' ->
  pending s' = 0 /\ counter_ok s' bound.
Proof.
  unfold counter_ok, INT_MAX; intros [[H0 H1] H2] Hb Ha.
  apply tick_counter in Ha as [[E1 E2] | [E1 E2]];
    unfold pending; rewrite E1, E2.
  - rewrite to_int_small by (unfold int_range, INT_MIN, INT_MAX; lia).
    rewrite to_uint_small by (unfold UINT_MOD; lia); lia.
  - cbn; lia.
Qed.

(** When every pass runs uninterrupted, pulses arrive only between passes
    and fewer than 2^31 of them arrive in all, the deltas read by the
    passes and the pulses still pending add up to the pulses that
    arrived. *)
Lemma uninterrupted_reads_count_all (l : list Action) :
  forall (s s' : State) (ds : list Z) (bound : Z),
  counter_ok s bound ->
  bound + count_pulses l <= INT_MAX ->
  play l s = Some s' ->
  reads l s = Some ds ->
  sum ds + pending s' = pending s + count_pulses l /\
  counter_ok s' (bound + count_pulses l).
Proof.
  induction l as [| a l IH]; intros s s' ds bound Hok Hb Hp Hr.
  - cbn [play reads count_pulses] in *; inversion Hp; inversion Hr; subst.
    rewrite !Z.add_0_r; split; [reflexivity | exact Hok].
  - cbn [play reads] in Hp, Hr.
    destruct (act a s) as [s1|] eqn:Ha; [|discriminate].
    destruct (reads l s1) as [ds1|] eqn:Hr1; [|discriminate].
    pose proof (count_pulses_nonneg l) as Hc.
    destruct a as [| t b | sig]; cbn [act count_pulses] in *;
      inversion Hr; subst ds; clear Hr.
    + inversion Ha; subst s1; clear Ha.
      destruct Hok as [[H0 H1] H2]; unfold INT_MAX in Hb.
      assert (Hk : clicks (handleClick s) = clicks s + 1).
      { unfold handleClick; simp_rec.
        apply to_uint_small; unfold UINT_MOD; lia. }
      assert (Hok1 : counter_ok (handleClick s) (bound + 1)).
      { unfold counter_ok; rewrite Hk; unfold handleClick; simp_rec; lia. }
      destruct (IH _ _ _ (bound + 1) Hok1 ltac:(unfold INT_MAX; lia) Hp Hr1)
        as [E1 E2].
      split.
      * rewrite E1; unfold pending; rewrite Hk.
        unfold handleClick; simp_rec; lia.
      * now replace (bound + (1 + count_pulses l))
          with (bound + 1 + count_pulses l) by lia.
    + pose proof (new_clicks_of_pending s bound Hok ltac:(lia)) as Hd.
      destruct (tick_counter_ok t b s s1 bound Hok ltac:(lia) Ha) as [Hp1 Hok1].
      destruct (IH _ _ _ bound Hok1 Hb Hp Hr1) as [E1 E2].
      split; [|exact E2].
      cbn [sum fold_right]; fold (sum ds1); lia.
    + apply signal_counter in Ha as [E1 E2].
      assert (Hok1 : counter_ok s1 bound).
      { unfold counter_ok in *; rewrite E1, E2; exact Hok. }
      destruct (IH _ _ _ bound Hok1 Hb Hp Hr1) as [E3 E4].
      split; [|exact E4].
      rewrite E3; unfold pending; rewrite E1, E2; reflexivity.
Qed.

Lemma play_app (l1 l2 : list Action) (s : State) :
  play (l1 ++ l2) s = (s1 <- play l1 s ;; play l2 s1).
Proof.
  revert s; induction l1 as [| a l1 IH]; intros s; cbn [app play].
  - reflexivity.
  - destruct (act a s); [apply IH | reflexivity].
Qed.

(** X22: From start-up, under the same conditions, once a last pass has read
    the counter the deltas add up to the pulses. *)
Lemma uninterrupted_reads_from_startup (c : Config) (l : list Action)
    (t : Z) (b : Level) (s' : State) (ds : list Z) :
  count_pulses l <= INT_MAX ->
  play (l ++ [ATick t b]) (startup c) = Some s' ->
  reads (l ++ [ATick t b]) (startup c) = Some ds ->
  sum ds = count_pulses l.
Proof.
  intros Hb Hp Hr.
  assert (Hc : count_pulses (l ++ [ATick t b]) = count_pulses l).
  { rewrite count_pulses_app; cbn; lia. }
  assert (Hok : counter_ok (startup c) 0) by (unfold counter_ok; cbn; lia).
  destruct (uninterrupted_reads_count_all (l ++ [ATick t b]) (startup c)
              s' ds 0 Hok ltac:(rewrite Hc; lia) Hp Hr) as [E _].
  rewrite Hc in E.
  rewrite play_app in Hp.
  destruct (play l (startup c)) as [s1|] eqn:Hp1; [|discriminate].
  assert (Hr1 : exists ds1, reads l (startup c) = Some ds1).
  { clear - Hr. revert Hr; generalize (startup c) as s; revert ds.
    induction l as [| a l IH]; intros ds s; cbn [app reads].
    - eauto.
    - destruct (act a s) as [s2|]; [|discriminate].
      destruct (reads (l ++ [ATick t b]) s2) as [ds2|] eqn:E; [|discriminate].
      destruct (IH _ _ E) as (ds1 & ->); eauto. }
  destruct Hr1 as (ds1 & Hr1).
  destruct (uninterrupted_reads_count_all l (startup c) s1 ds1 0 Hok
              ltac:(lia) Hp1 Hr1) as [_ Hok1].
  cbn [play act] in Hp.
  destruct (tick t b s1) as [s2|] eqn:Ht; [|discriminate].
  inversion Hp; subst s2.
  destruct (tick_counter_ok t b s1 s' (0 + count_pulses l) Hok1 ltac:(lia) Ht)
    as [Hz _].
  unfold pending in E at 2; cbn in E. lia.
Qed.

(** ** Pulses that arrive during a pass *)

(** C3 on the code: one pulse arrives, two passes read the counter, and
    both reads return 0.  Line 282 copies the counter, pulse included, into
    the baseline that line 281 had compared with the counter before the
    pulse, so no later read returns it either: [total_clicks] stays 0 and
    nothing is pending. *)
Theorem pulse_between_the_two_reads_is_lost :
  count_clicks lost_pulse_schedule = 1 /\
  read_deltas lost_pulse_schedule (boot default_config 100 HIGH)
    = Some [0; 0] /\
  exists m,
    run lost_pulse_schedule (boot default_config 100 HIGH) = Some m /\
    pc m = L271 /\
    clicks (glob m) = 1 /\
    last_click_count (glob m) = 1 /\
    total_clicks (glob m) = 0 /\
    new_clicks_of (glob m) = 0 /\
    phase (glob m) = Idle.
Proof.
  split; [reflexivity|].
  split; [vm_compute; reflexivity|].
  eexists; split; [vm_compute; reflexivity|].
  repeat split.
Qed.

(** The same loss on the reset path: the pulse is in no delta and the
    zeroing of lines 292-294 removes it from the counter. *)
Lemma pulse_before_the_zeroing_is_lost :
  count_clicks reset_race_schedule = 1 /\
  read_deltas reset_race_schedule (boot default_config 100 HIGH)
    = Some [0] /\
  exists m,
    run reset_race_schedule (boot default_config 100 HIGH) = Some m /\
    pc m = L271 /\
    clicks (glob m) = 0 /\
    last_click_count (glob m) = 0 /\
    total_clicks (glob m) = 0.
Proof.
  split; [reflexivity|].
  split; [vm_compute; reflexivity|].
  eexists; split; [vm_compute; reflexivity|].
  repeat split.
Qed.

(** ** The relay and the [triggered] flag *)

(** Every uninterrupted pass and every signal handled between two passes
    keeps the relay in step with [triggered]. *)
Lemma act_keeps_relay (a : Action) (s s' : State) :
  relay_matches_phase s -> act a s = Some s' -> relay_matches_phase s'.
Proof.
  unfold relay_matches_phase; intros Hi Ha.
  destruct a as [| t b | sig]; cbn [act] in Ha.
  - inversion Ha; subst; exact Hi.
  - apply tick_cases in Ha as (s1 & nc & secs & l & Hf & Hs).
    apply flow_block_cases in Hf.
    destruct Hs as [(r & ->) | (why & ->)];
      destruct Hf as [-> | [-> | [-> | [(_ & ? & ->) | ->]]]];
      simp_rec; auto.
  - destruct sig; unfold signalHandler in Ha;
      try (inversion Ha; subst; auto; fail).
    + destruct (readConfig _ _ _); inversion Ha; subst; auto.
    + destruct (showStats s); inversion Ha; subst; auto.
Qed.

(** X21: when every pass runs uninterrupted and signals are handled
    between passes, every state reached from start-up has the relay LOW
    exactly when [triggered] is set. *)
Lemma play_keeps_relay (l : list Action) (c : Config) (s : State) :
  play l (startup c) = Some s -> relay_matches_phase s.
Proof.
  assert (H : forall s0, relay_matches_phase s0 ->
                play l s0 = Some s -> relay_matches_phase s).
  { induction l as [| a l IH]; intros s0 Hi Hp; cbn [play] in Hp.
    - inversion Hp; subst; exact Hi.
    - destruct (act a s0) as [s1|] eqn:Ha; [|discriminate].
      exact (IH s1 (act_keeps_relay a s0 s1 Hi Ha) Hp). }
  apply H; reflexivity.
Qed.

(** C4 on the code: at the end of that pass the phase is Triggered and
    the relay is energized.  The handler opened the relay and set
    [triggered], line 301 closed the relay again, and line 303 then skipped
    the flow logic. *)
Theorem sigcont_during_reset_leaves_relay_closed :
  exists m,
    run sigcont_race_schedule (boot default_config 100 HIGH) = Some m /\
    pc m = L271 /\
    phase (glob m) = Triggered /\
    relay (glob m) = HIGH /\
    ~ relay_matches_phase (glob m).
Proof.
  eexists; split; [vm_compute; reflexivity|].
  repeat split. vm_compute; discriminate.
Qed.

(** Left alone, later passes keep that state: with [triggered] set, no
    reset pending and the button released, a pass changes neither the flag
    nor the relay. *)
Lemma triggered_pass_keeps_relay (t : Z) (s : State) :
  valid_cpl (cfg s) -> triggered s = true -> reset s = 0 ->
  exists s',
    tick t HIGH s = Some s' /\
    triggered s' = true /\ relay s' = relay s /\ reset s' = 0.
Proof.
  intros Hc Ht Hr; unfold tick; simp_rec.
  rewrite div_int_pos by apply Hc.
  rewrite div_uint_cpl by assumption.
  rewrite Ht; cbn [andb Level_eqb]; simp_rec; rewrite Hr.
  unfold flow_block; simp_rec; rewrite Ht.
  eexists; split; [reflexivity|]; simp_rec; auto.
Qed.

(** * Further properties of the loop *)

(** ** Outcome of a Counting pass, for every configuration *)

(** A Counting pass with new pulses and no reset pending, in full.  It
    trips exactly when the elapsed time exceeds [time_limit] or the litres
    exceed [max_litres] (compared as [unsigned]).  A pass that trips has to
    write its record first: when the state file cannot be opened the pass
    ends at line 121 and returns nothing.  Otherwise the pass returns, with
    [last_click_time] moved to the time of the pass; a trip writes one
    record, which names the time when the time limit is exceeded and the
    volume otherwise, and opens the relay; when neither limit is exceeded
    nothing is written and the relay is not driven. *)
Lemma counting_pass_cases (t : Z) (b : Level) (s : State) :
  valid_cpl (cfg s) ->
  phase s = Counting ->
  reset s = 0 ->
  new_clicks_of s <> 0 ->
  let over_time := sub_int t (first_click_time s) >? time_limit (cfg s) in
  let over_volume := litres_of s >? to_uint (max_litres (cfg s)) in
  if (over_time || over_volume) && negb (statefile_opens s)
  then tick t b s = None
  else
    exists s',
      tick t b s = Some s' /\
      last_click_time s' = t /\
      first_click_time s' = first_click_time s /\
      clicks s' = clicks s /\
      phase s' = (if over_time || over_volume then Triggered else Counting) /\
      relay s' = (if over_time || over_volume then LOW else relay s) /\
      statefile s' =
        statefile s ++
        (if over_time
         then [("stopped" ++ String "009"%char
                  ("time" ++ String "010"%char EmptyString))%string]
         else if over_volume
         then [("stopped" ++ String "009"%char
                  ("volume" ++ String "010"%char EmptyString))%string]
         else []).
Proof.
  intros Hc Hp Hr Hn over_time over_volume.
  apply phase_Counting in Hp as [Htr Hcn].
  rewrite tick_no_reset by assumption.
  subst over_time over_volume.
  destruct (sub_int t (first_click_time s) >? time_limit (cfg s)) eqn:Et;
    [|destruct (litres_of s >? to_uint (max_litres (cfg s))) eqn:Ev];
    cbn [orb andb].
  - assert (Hk : stop_reason_of (litres_of s)
                   (sub_int t (first_click_time (after_read s)))
                   (cfg (after_read s)) = 2)
      by (apply stop_reason_of_time; simp_rec; lia).
    destruct (statefile_opens s) eqn:Ho; cbn [negb].
    + rewrite flow_trip with (k := 2); auto.
      eexists; split; [reflexivity|]; repeat split.
    + apply flow_trip_dies with (k := 2); auto.
  - assert (Hk : stop_reason_of (litres_of s)
                   (sub_int t (first_click_time (after_read s)))
                   (cfg (after_read s)) = 1)
      by (apply stop_reason_of_volume; simp_rec; lia).
    destruct (statefile_opens s) eqn:Ho; cbn [negb].
    + rewrite flow_trip with (k := 1); auto.
      eexists; split; [reflexivity|]; repeat split.
    + apply flow_trip_dies with (k := 1); auto.
  - rewrite flow_continue; try assumption.
    + eexists; split; [reflexivity|]; rewrite app_nil_r.
      repeat split. apply phase_Counting; simp_rec; auto.
    + apply stop_reason_of_none; simp_rec; lia.
Qed.



(** The pass that trips on 1100 pulses, on a system where the state file
    cannot be opened: it ends at line 121, before line 326 opens the
    relay. *)
Lemma tripping_pass_without_statefile :
  let s := mkState 1100 0 false true 1 1 1 1 volume_config HIGH
             [started_line "startup"] false in
  tick 2 HIGH s = None.
Proof. vm_compute; reflexivity. Qed.

(** ** The pass that opens an episode *)

(** An Idle pass with new pulses and no reset pending opens the
    episode: [counting] is set and both click times become the time of the
    pass.  It evaluates no threshold, so it never trips, whatever the
    counter and the limits are: the relay is not driven, nothing is
    written and the counter is kept. *)
Lemma opening_pass (t : Z) (b : Level) (s : State) :
  valid_cpl (cfg s) ->
  phase s = Idle ->
  reset s = 0 ->
  new_clicks_of s <> 0 ->
  exists s',
    tick t b s = Some s' /\
    phase s' = Counting /\
    first_click_time s' = t /\
    last_click_time s' = t /\
    clicks s' = clicks s /\
    relay s' = relay s /\
    statefile s' = statefile s.
Proof.
  intros Hc Hp Hr Hn.
  apply phase_Idle in Hp as [Htr Hcn].
  rewrite tick_no_reset by assumption.
  unfold flow_block; simp_rec; rewrite Htr, Hcn; cbn [negb].
  destruct (new_clicks_of s =? 0) eqn:E; [lia|]; cbn [negb].
  eexists; split; [reflexivity|]; repeat split.
  apply phase_Counting; simp_rec; auto.
Qed.

(** X2: an Idle pass with new pulses and no reset pending opens the
    episode: [counting] is set and both click times become the time of the
    pass.  It evaluates no threshold, so it never trips, whatever the
    counter and the limits are: the relay is not driven, nothing is
    written and the counter is kept. *)
Theorem opening_pass_never_trips (t : Z) (b : Level) (s : State) :
  valid_cpl (cfg s) ->
  phase s = Idle ->
  reset s = 0 ->
  new_clicks_of s <> 0 ->
  exists s',
    tick t b s = Some s' /\
    phase s' = Counting /\
    first_click_time s' = t /\
    last_click_time s' = t /\
    clicks s' = clicks s /\
    relay s' = relay s /\
    statefile s' = statefile s.
Proof.
  intros Hc Hp Hr Hn; exact (opening_pass t b s Hc Hp Hr Hn).
Qed.

Lemma opening_pass_never_trips_witness :
  litres_of (clicks_arrive 1000 (startup (mkConfig 1 0 600 0 0))) >
    to_uint (max_litres (mkConfig 1 0 600 0 0)) /\
  exists s',
    tick 5000 HIGH (clicks_arrive 1000 (startup (mkConfig 1 0 600 0 0)))
      = Some s' /\
    phase s' = Counting /\
    first_click_time s' = 5000 /\
    last_click_time s' = 5000 /\
    clicks s' = 1000 /\
    relay s' = HIGH /\
    statefile s' = [started_line "startup"].
Proof.
  split; [vm_compute; reflexivity|].
  apply (opening_pass_never_trips 5000 HIGH
           (clicks_arrive 1000 (startup (mkConfig 1 0 600 0 0))));
    vm_compute;
    solve [reflexivity | discriminate | split; [reflexivity | discriminate]].
Defined.

(** ** What every pass keeps *)

(** X3: whatever path a pass takes, it adds the delta it read to
    [total_clicks] and writes that global nowhere else (a reset or a stall
    recovery does not clear it), and it leaves the configuration alone. *)
Theorem pass_accumulates_total (t : Z) (b : Level) (s s' : State) :
  tick t b s = Some s' ->
  total_clicks s' = add_int (total_clicks s) (new_clicks_of s) /\
  cfg s' = cfg s.
Proof.
  intros H; apply tick_cases in H as (s1 & nc & secs & l & Hf & Hs).
  apply flow_block_cases in Hf.
  destruct Hs as [(r & ->) | (why & ->)];
    destruct Hf as [-> | [-> | [-> | [(_ & ? & ->) | ->]]]];
    simp_rec; auto.
Qed.

Lemma pass_accumulates_total_witness :
  total_clicks
    (mkState 0 0 false false 1500 0 1500 90450 default_config HIGH
       [started_line "startup"; stopped_line "time"; started_line "signal"] true)
  = add_int (total_clicks tripped_state) (new_clicks_of tripped_state) /\
  cfg (mkState 0 0 false false 1500 0 1500 90450 default_config HIGH
       [started_line "startup"; stopped_line "time"; started_line "signal"] true)
  = cfg tripped_state.
Proof.
  apply (pass_accumulates_total 1500 HIGH tripped_state).
  vm_compute; reflexivity.
Defined.

Lemma to_uint_to_int (z : Z) : to_uint (to_int z) = to_uint z.
Proof.
  unfold to_uint, to_int, UINT_MOD.
  rewrite Zminus_mod_idemp_l.
  f_equal; lia.
Qed.

Lemma sub_uint_self (z : Z) : sub_uint z (to_uint z) = 0.
Proof.
  unfold sub_uint, to_uint, UINT_MOD.
  rewrite Zminus_mod_idemp_r, Z.sub_diag; reflexivity.
Qed.

(** A pass leaves nothing behind to read: straight after any pass the
    difference of line 281 is 0, so a pulse that one pass has counted is
    not counted again by the next, also when the counter has wrapped or
    the pass zeroed it. *)
Theorem second_read_is_zero (t : Z) (b : Level) (s s' : State) :
  tick t b s = Some s' -> new_clicks_of s' = 0.
Proof.
  intros H; apply tick_counter in H as [[E1 E2] | [E1 E2]];
    unfold new_clicks_of; rewrite E1, E2.
  - rewrite to_uint_to_int, sub_uint_self; reflexivity.
  - reflexivity.
Qed.

Lemma second_read_is_zero_witness :
  new_clicks_of
    (mkState 1001 0 false true 2 1001 1 1001 volume_config HIGH
       [started_line "startup"] true) = 0.
Proof.
  apply (second_read_is_zero 2 HIGH after_1001).
  vm_compute; reflexivity.
Defined.

(** ** What a pass writes *)

Lemma index_reset_msg (r : Z) (why : string) :
  r <> 0 -> index reset_msg r = Some why ->
  why = "button"%string \/ why = "signal"%string.
Proof.
  unfold index; intros Hr H.
  destruct (r <? 0) eqn:E; [discriminate|].
  apply Z.ltb_ge in E.
  destruct (Z.to_nat r) as [| [| [| n]]] eqn:En; cbn in H.
  - lia.
  - inversion H; auto.
  - inversion H; auto.
  - destruct n; discriminate.
Qed.

Lemma stop_reason_of_values (l e : Z) (c : Config) :
  stop_reason_of l e c = 0 \/ stop_reason_of l e c = 1 \/
  stop_reason_of l e c = 2.
Proof.
  unfold stop_reason_of.
  destruct (e >? time_limit c), (l >? to_uint (max_litres c)); auto.
Qed.

Lemma flow_block_record (t secs nc l : Z) (s s' : State) :
  flow_block t secs nc l s = Some s' ->
  statefile s' = statefile s \/
  (triggered s = false /\
   exists line, In line [stopped_line "volume"; stopped_line "time"] /\
     statefile s' = statefile s ++ [line]).
Proof.
  unfold flow_block; intros H.
  destruct (triggered s) eqn:Ht; cbn [negb] in H; [inversion H; auto|].
  destruct (counting s).
  - destruct (nc =? 0).
    + destruct (secs >? reset_period (cfg s)); inversion H; auto.
    + simp_rec.
      destruct (stop_reason_of_values l (sub_int t (first_click_time s))
                  (cfg s)) as [E | [E | E]]; rewrite E in H.
      * change (negb (0 =? 0)) with false in H; cbn iota in H.
        inversion H; auto.
      * change (negb (1 =? 0)) with true in H; cbn iota in H.
        change (index stop_msg 1) with (Some "volume"%string) in H.
        cbn iota beta in H.
        destruct (writeState _ _) as [s1|] eqn:Ew; [|discriminate].
        unfold writeState in Ew; simp_rec.
        destruct (statefile_opens s); [|discriminate].
        inversion Ew; subst s1; clear Ew.
        destruct (showStats _); [|discriminate].
        inversion H; simp_rec; right; split; [reflexivity|].
        eexists; split; [|reflexivity]; cbn; auto.
      * change (negb (2 =? 0)) with true in H; cbn iota in H.
        change (index stop_msg 2) with (Some "time"%string) in H.
        cbn iota beta in H.
        destruct (writeState _ _) as [s1|] eqn:Ew; [|discriminate].
        unfold writeState in Ew; simp_rec.
        destruct (statefile_opens s); [|discriminate].
        inversion Ew; subst s1; clear Ew.
        destruct (showStats _); [|discriminate].
        inversion H; simp_rec; right; split; [reflexivity|].
        eexists; split; [|reflexivity]; cbn; auto.
  - destruct (negb (nc =? 0)); inversion H; auto.
Qed.

(** X5: a pass writes the state file at most once, and what it writes is
    one of "started<TAB>button", "started<TAB>signal",
    "stopped<TAB>volume", "stopped<TAB>time", each ended by a newline: a
    pass that serves a reset never also records a stop, and the empty
    first entries of [reset_msg] and [stop_msg] are never written. *)
Theorem pass_writes_at_most_one_record (t : Z) (b : Level) (s s' : State) :
  tick t b s = Some s' ->
  statefile s' = statefile s \/
  exists line, In line pass_records /\ statefile s' = statefile s ++ [line].
Proof.
  unfold tick; simp_rec; intros H.
  destruct (div_int _ _); [|discriminate].
  destruct (div_uint _ _) as [l|]; [|discriminate].
  fold (new_clicks_of s) in H; fold (after_read s) in H.
  set (s0 := if triggered s && Level_eqb b LOW
             then set_reset 1 (after_read s) else after_read s) in H.
  assert (H0 : statefile s0 = statefile s).
  { subst s0; destruct (triggered s && Level_eqb b LOW); reflexivity. }
  destruct (reset s0 =? 0) eqn:Er; cbn [negb] in H.
  - apply flow_block_record in H as [H | (_ & line & Hin & H)].
    + left; congruence.
    + right; exists line; split; [|congruence].
      unfold pass_records; cbn in Hin |- *; tauto.
  - apply Z.eqb_neq in Er.
    destruct (reset_block t s0) as [s1|] eqn:E; [|discriminate].
    unfold reset_block, writeState in E; simp_rec.
    destruct (index reset_msg (reset s0)) as [why|] eqn:Ew; [|discriminate].
    apply index_reset_msg in Ew; [|exact Er].
    destruct (statefile_opens s0); [|discriminate].
    inversion E; subst s1; clear E.
    match type of H with flow_block _ ?secs _ _ ?s1 = _ =>
      destruct (flow_quiet t secs l s1) as (s2 & Hq & _ & _ & Hf)
    end.
    rewrite Hq in H; inversion H; subst s2.
    right; exists (started_line why); split.
    + unfold pass_records; destruct Ew as [-> | ->]; cbn; auto.
    + rewrite Hf; simp_rec; congruence.
Qed.

Lemma pass_writes_at_most_one_record_witness :
  statefile
    (mkState 0 0 false false 1500 0 1500 90450 default_config HIGH
       [started_line "startup"; stopped_line "time"; started_line "signal"] true)
  = statefile tripped_state \/
  exists line, In line pass_records /\
    statefile
      (mkState 0 0 false false 1500 0 1500 90450 default_config HIGH
         [started_line "startup"; stopped_line "time";
          started_line "signal"] true)
    = statefile tripped_state ++ [line].
Proof.
  apply (pass_writes_at_most_one_record 1500 HIGH tripped_state).
  vm_compute; reflexivity.
Defined.

(** ** Triggered holds until a reset *)

Lemma triggered_pass (t : Z) (s : State) :
  valid_cpl (cfg s) -> triggered s = true -> reset s = 0 ->
  tick t HIGH s = Some (after_read s).
Proof.
  intros Hc Ht Hr; unfold tick; simp_rec.
  rewrite div_int_pos by apply Hc.
  rewrite div_uint_cpl by assumption.
  rewrite Ht; cbn [andb Level_eqb]; simp_rec; rewrite Hr.
  unfold flow_block; simp_rec; rewrite Ht; reflexivity.
Qed.

Lemma triggered_holds (l : list Action) :
  forall s : State,
  valid_cpl (cfg s) -> triggered s = true -> reset s = 0 ->
  forallb pulse_or_released_pass l = true ->
  exists s',
    play l s = Some s' /\
    triggered s' = true /\ reset s' = 0 /\ cfg s' = cfg s /\
    relay s' = relay s /\ statefile s' = statefile s.
Proof.
  induction l as [| a l IH]; intros s Hc Ht Hr Hl.
  - exists s; cbn; repeat split; assumption.
  - cbn [forallb] in Hl; apply andb_prop in Hl as [Ha Hl].
    destruct a as [| t b | sig]; try discriminate; cbn [play act].
    + destruct (IH (handleClick s)) as (s' & Hp & H); auto.
      exists s'; split; [exact Hp | exact H].
    + destruct b; [discriminate|].
      rewrite triggered_pass by assumption.
      destruct (IH (after_read s)) as (s' & Hp & H); auto.
      exists s'; split; [exact Hp | exact H].
Qed.

(** X6: once [triggered] is set, no sequence of pulses and of passes that
    read the button released changes the relay, the flag or the state
    file, however long it lasts: only a reset request (SIGUSR1, or the
    button read low) ends the Triggered phase. *)
Theorem triggered_until_reset (l : list Action) (s : State) :
  valid_cpl (cfg s) ->
  phase s = Triggered ->
  reset s = 0 ->
  forallb pulse_or_released_pass l = true ->
  exists s',
    play l s = Some s' /\
    phase s' = Triggered /\
    relay s' = relay s /\
    statefile s' = statefile s.
Proof.
  intros Hc Hp Hr Hl.
  apply phase_Triggered in Hp.
  destruct (triggered_holds l s Hc Hp Hr Hl) as (s' & H1 & H2 & _ & _ & H3).
  exists s'; split; [exact H1|]; split; [|exact H3].
  now apply phase_Triggered.
Qed.

Lemma triggered_until_reset_witness :
  exists s',
    play (pulses 500 ++ [ATick 2000 HIGH] ++ pulses 7 ++ [ATick 9000 HIGH])
      (set_reset 0 tripped_state) = Some s' /\
    phase s' = Triggered /\
    relay s' = relay (set_reset 0 tripped_state) /\
    statefile s' = statefile (set_reset 0 tripped_state).
Proof.
  apply (triggered_until_reset
           (pulses 500 ++ [ATick 2000 HIGH] ++ pulses 7 ++ [ATick 9000 HIGH])
           (set_reset 0 tripped_state)).
  - vm_compute; split; [reflexivity | discriminate].
  - reflexivity.
  - reflexivity.
  - vm_compute; reflexivity.
Defined.

(** X7: SIGCONT, handled between two passes, opens the relay and sets
    [triggered] from any phase, and neither the handler nor the passes
    that follow write the state file: the stop it causes is never
    recorded, and it lasts until a reset. *)
Theorem sigcont_stop_is_not_recorded (l : list Action) (s : State) :
  valid_cpl (cfg s) ->
  reset s = 0 ->
  forallb pulse_or_released_pass l = true ->
  exists s',
    play (ASignal SIGCONT :: l) s = Some s' /\
    phase s' = Triggered /\
    relay s' = LOW /\
    statefile s' = statefile s.
Proof.
  intros Hc Hr Hl; cbn [play act signalHandler].
  destruct (triggered_holds l (set_triggered true (digitalWrite LOW s)))
    as (s' & H1 & H2 & _ & _ & H3 & H4); auto.
  exists s'; split; [exact H1|]; repeat split.
  - now apply phase_Triggered.
  - exact H3.
  - exact H4.
Qed.

Lemma sigcont_stop_is_not_recorded_witness :
  phase stalled_state = Counting /\
  exists s',
    play (ASignal SIGCONT :: pulses 3 ++ [ATick 200 HIGH]) stalled_state
      = Some s' /\
    phase s' = Triggered /\
    relay s' = LOW /\
    statefile s' = statefile stalled_state.
Proof.
  split; [reflexivity|].
  apply (sigcont_stop_is_not_recorded (pulses 3 ++ [ATick 200 HIGH])
           stalled_state).
  - vm_compute; split; [reflexivity | discriminate].
  - reflexivity.
  - vm_compute; reflexivity.
Defined.

(** X8: a reset request and SIGCONT that both arrive between the same two
    passes end, in either order, with the reset taken up by the next pass.
    When the state file can be opened that pass clears [triggered], closes
    the relay again and writes the record "started<TAB>button<LF>" when it
    reads the button low and "started<TAB>signal<LF>" otherwise, so the
    stop asked for by SIGCONT is undone even when it arrived last.  When
    the state file cannot be opened the pass ends at the write, in either
    order. *)
Theorem pending_reset_undoes_sigcont (t : Z) (b : Level) (s : State) :
  valid_cpl (cfg s) ->
  if statefile_opens s then
    exists s',
      play [ASignal SIGUSR1; ASignal SIGCONT; ATick t b] s = Some s' /\
      play [ASignal SIGCONT; ASignal SIGUSR1; ATick t b] s = Some s' /\
      phase s' = Idle /\
      relay s' = HIGH /\
      statefile s' =
        statefile s ++
        [("started" ++ String "009"%char
            ((if Level_eqb b LOW then "button" else "signal")
               ++ String "010"%char EmptyString))%string]
  else
    play [ASignal SIGUSR1; ASignal SIGCONT; ATick t b] s = None /\
    play [ASignal SIGCONT; ASignal SIGUSR1; ATick t b] s = None.
Proof.
  intros Hc; cbn [play act signalHandler].
  assert (E : set_reset 2 (set_triggered true (digitalWrite LOW s))
              = set_triggered true (digitalWrite LOW (set_reset 2 s))).
  { destruct s; reflexivity. }
  rewrite E.
  destruct (statefile_opens s) eqn:Ho.
  - destruct (tick_reset_after t b
                (set_triggered true (digitalWrite LOW (set_reset 2 s))))
      as (s' & Hs & Ha);
      [exact Hc | exact Ho | right; right; reflexivity |].
    exists s'; rewrite Hs.
    split; [reflexivity|]; split; [reflexivity|].
    destruct Ha as (Hp & _ & _ & _ & _ & _ & Hy & Hf).
    split; [exact Hp|]; split; [exact Hy|].
    rewrite Hf; unfold reset_source; simp_rec.
    destruct (Level_eqb b LOW); reflexivity.
  - rewrite tick_reset_dies;
      [split; reflexivity | exact Hc | exact Ho | right; right; reflexivity].
Qed.

Lemma pending_reset_undoes_sigcont_witness :
  exists s',
    play [ASignal SIGUSR1; ASignal SIGCONT; ATick 200 HIGH] stalled_state
      = Some s' /\
    play [ASignal SIGCONT; ASignal SIGUSR1; ATick 200 HIGH] stalled_state
      = Some s' /\
    phase s' = Idle /\
    relay s' = HIGH /\
    statefile s' =
      statefile stalled_state ++
      [("started" ++ String "009"%char
          ("signal" ++ String "010"%char EmptyString))%string].
Proof.
  apply (pending_reset_undoes_sigcont 200 HIGH stalled_state).
  vm_compute; split; [reflexivity | discriminate].
Defined.

(** ** Degenerate configurations *)

Lemma play_pulses_keep_cfg (n : nat) (s : State) :
  cfg (clicks_arrive n s) = cfg s.
Proof. induction n as [| n IH]; cbn; [reflexivity | exact IH]. Qed.

Lemma play_pulses (n : nat) (rest : list Action) (s : State) :
  play (repeat APulse n ++ rest) s = play rest (clicks_arrive n s).
Proof.
  revert s; induction n as [| n IH]; intros s; cbn [repeat app play act].
  - reflexivity.
  - rewrite IH; unfold clicks_arrive; now rewrite Nat.iter_succ_r.
Qed.

(** X9: with [clicks_per_litre] equal to 0 the first pass after start-up
    traps on the division of line 284, whatever pulses came before it and
    whatever would follow; SIGUSR2 traps on the same division in
    [showStats].  Neither the configuration file nor the command line
    rejects the value. *)
Theorem zero_clicks_per_litre_traps (c : Config) (n : Z) (t : Z) (b : Level)
    (rest : list Action) :
  clicks_per_litre c = 0 ->
  play (pulses n ++ ATick t b :: rest) (startup c) = None /\
  play (pulses n ++ ASignal SIGUSR2 :: rest) (startup c) = None.
Proof.
  intros Hz; unfold pulses; rewrite !play_pulses; cbn [play act].
  unfold tick, signalHandler, showStats; simp_rec.
  rewrite !play_pulses_keep_cfg; cbn [cfg startup].
  rewrite Hz; split; reflexivity.
Qed.

Lemma zero_clicks_per_litre_traps_witness :
  play (pulses 3 ++ ATick 10 HIGH :: [ATick 11 HIGH])
    (startup (with_clicks_per_litre 0 default_config)) = None /\
  play (pulses 3 ++ ASignal SIGUSR2 :: [ATick 11 HIGH])
    (startup (with_clicks_per_litre 0 default_config)) = None.
Proof.
  apply (zero_clicks_per_litre_traps
           (with_clicks_per_litre 0 default_config) 3 10 HIGH
           [ATick 11 HIGH]).
  reflexivity.
Defined.

(** X10: [litres > max_litres] compares as [unsigned int], so a negative
    [max_litres] does not make every pass trip: it switches the volume
    limit off.  While the counter is below 2^31, a Counting pass with new
    pulses and the time limit not exceeded stays Counting and writes
    nothing, whatever the volume. *)
Theorem negative_max_litres_never_trips (t : Z) (b : Level) (s : State) :
  valid_cpl (cfg s) ->
  INT_MIN <= max_litres (cfg s) < 0 ->
  0 <= clicks s <= INT_MAX ->
  phase s = Counting ->
  reset s = 0 ->
  new_clicks_of s <> 0 ->
  sub_int t (first_click_time s) <= time_limit (cfg s) ->
  exists s',
    tick t b s = Some s' /\
    phase s' = Counting /\
    relay s' = relay s /\
    statefile s' = statefile s.
Proof.
  intros Hc Hm Hk Hp Hr Hn Ht.
  pose proof (counting_pass_cases t b s Hc Hp Hr Hn) as H; cbv zeta in H.
  assert (Et : (sub_int t (first_click_time s) >? time_limit (cfg s))
               = false) by (rewrite Z.gtb_ltb; apply Z.ltb_ge; lia).
  assert (Ev : (litres_of s >? to_uint (max_litres (cfg s))) = false).
  { rewrite Z.gtb_ltb; apply Z.ltb_ge.
    unfold valid_cpl, INT_MAX, INT_MIN in *.
    assert (E : to_uint (max_litres (cfg s))
                = max_litres (cfg s) + 2 ^ 32).
    { unfold to_uint, UINT_MOD.
      rewrite <- (Z.mod_add _ 1) by lia.
      rewrite Z.mod_small; lia. }
    rewrite E; unfold litres_of.
    rewrite to_uint_small by (unfold UINT_MOD; lia).
    assert (clicks s / clicks_per_litre (cfg s) <= clicks s).
    { apply Z.div_le_upper_bound; nia. }
    lia. }
  rewrite Et, Ev in H; cbn [orb andb] in H.
  destruct H as (s' & Hs & H); rewrite app_nil_r in H.
  exists s'; tauto.
Qed.

Lemma negative_max_litres_never_trips_witness :
  litres_of (mkState 90450 0 false true 0 450 0 450
               (with_max_litres (-1) default_config) HIGH [] true) = 201 /\
  exists s',
    tick 10 HIGH
      (mkState 90450 0 false true 0 450 0 450
         (with_max_litres (-1) default_config) HIGH [] true) = Some s' /\
    phase s' = Counting /\
    relay s' = HIGH /\
    statefile s' = [].
Proof.
  split; [reflexivity|].
  apply (negative_max_litres_never_trips 10 HIGH
           (mkState 90450 0 false true 0 450 0 450
              (with_max_litres (-1) default_config) HIGH [] true));
    vm_compute;
    solve [reflexivity | discriminate
          | split; [reflexivity | discriminate]
          | split; [discriminate | reflexivity]
          | split; discriminate].
Defined.

(** ** The counter across its wrap-around *)

Lemma clicks_arrive_counter (k : nat) (s : State) :
  uint_range (clicks s) ->
  clicks (clicks_arrive k s) = to_uint (clicks s + Z.of_nat k) /\
  last_click_count (clicks_arrive k s) = last_click_count s.
Proof.
  intros Hr; induction k as [| k [IH1 IH2]].
  - cbn [clicks_arrive Nat.iter Z.of_nat]; rewrite Z.add_0_r.
    split; [symmetry; now apply to_uint_small | reflexivity].
  - unfold clicks_arrive in *; rewrite Nat.iter_succ.
    set (s1 := Nat.iter k handleClick s) in *.
    unfold handleClick; simp_rec; split; [|exact IH2].
    rewrite IH1; unfold to_uint, UINT_MOD.
    rewrite Zplus_mod_idemp_l; f_equal; lia.
Qed.

(** X4: after any pass, the next read returns exactly the number of
    pulses that arrived in between, for up to 2^31 - 1 pulses, also when
    the 32-bit counter wraps around in between: the subtraction of line
    281 is done on [unsigned int]. *)
Theorem delta_survives_wrap (t : Z) (b : Level) (s0 s : State) (k : nat) :
  uint_range (clicks s0) ->
  tick t b s0 = Some s ->
  Z.of_nat k <= INT_MAX ->
  new_clicks_of (clicks_arrive k s) = Z.of_nat k.
Proof.
  intros Hr Ht Hk.
  assert (H : uint_range (clicks s) /\ to_uint (last_click_count s) = clicks s).
  { apply tick_counter in Ht as [[E1 E2] | [E1 E2]]; rewrite E1, E2.
    - split; [exact Hr|]. rewrite to_uint_to_int; now apply to_uint_small.
    - split; [unfold uint_range, UINT_MOD; lia | reflexivity]. }
  destruct H as [Hs Hb].
  destruct (clicks_arrive_counter k s Hs) as [E1 E2].
  unfold new_clicks_of; rewrite E1, E2, Hb.
  unfold sub_uint, to_uint, UINT_MOD.
  rewrite Zminus_mod_idemp_l.
  replace (clicks s + Z.of_nat k - clicks s) with (Z.of_nat k) by lia.
  unfold INT_MAX in Hk.
  rewrite Z.mod_small by lia.
  apply to_int_small; unfold int_range, INT_MIN, INT_MAX; lia.
Qed.

Lemma delta_survives_wrap_witness :
  clicks
    (clicks_arrive 10
       (mkState 4294967293 0 true true 0 (-3) 0 5 default_config LOW [] true)) = 7 /\
  new_clicks_of
    (clicks_arrive 10
       (mkState 4294967293 0 true true 0 (-3) 0 5 default_config LOW [] true))
  = Z.of_nat 10.
Proof.
  split; [vm_compute; reflexivity|].
  apply (delta_survives_wrap 50 HIGH
           (mkState 4294967293 0 true true 0 (-8) 0 0 default_config LOW [] true)
           (mkState 4294967293 0 true true 0 (-3) 0 5 default_config LOW [] true)
           10).
  - vm_compute; split; [discriminate | reflexivity].
  - vm_compute; reflexivity.
  - vm_compute; discriminate.
Defined.

(** * Configuration *)

Lemma assign_key_fields (buf : string) (v : Z) (c : Config) :
  reset_period (assign_key buf v c)
    = (if String.eqb "reset_period" buf then v else reset_period c) /\
  time_limit (assign_key buf v c)
    = (if String.eqb "max_time" buf then mul_int v 60 else time_limit c) /\
  max_litres (assign_key buf v c)
    = (if String.eqb "max_litres" buf then v else max_litres c) /\
  clicks_per_litre (assign_key buf v c)
    = (if String.eqb "clicks_per_litre" buf then v
       else clicks_per_litre c) /\
  verbose (assign_key buf v c)
    = (if String.eqb "verbosity" buf then v else verbose c).
Proof.
  unfold assign_key.
  destruct (String.eqb_spec "reset_period" buf) as [<- | ?];
    [repeat split|].
  destruct (String.eqb_spec "max_time" buf) as [<- | ?]; [repeat split|].
  destruct (String.eqb_spec "max_litres" buf) as [<- | ?]; [repeat split|].
  destruct (String.eqb_spec "clicks_per_litre" buf) as [<- | ?];
    [repeat split|].
  destruct (String.eqb_spec "verbosity" buf) as [<- | ?]; repeat split.
Qed.

Lemma or_else_last (o : option Z) (key buf : string) (v d : Z) :
  or_else o (if String.eqb key buf then v else d)
  = or_else (match o with
             | Some x => Some x
             | None => if String.eqb key buf then Some v else None
             end) d.
Proof. destruct o; [reflexivity|]; destruct (String.eqb key buf); reflexivity. Qed.

Lemma scan_loop_fields (items : list scan_item) :
  forall (val : Z) (c : Config),
  let ls := assigned items val in
  let c' := scan_loop items val c in
  reset_period c' = or_else (last_for "reset_period" ls) (reset_period c) /\
  time_limit c' = or_else (minutes (last_for "max_time" ls)) (time_limit c) /\
  max_litres c' = or_else (last_for "max_litres" ls) (max_litres c) /\
  clicks_per_litre c'
    = or_else (last_for "clicks_per_litre" ls) (clicks_per_litre c) /\
  verbose c' = or_else (last_for "verbosity" ls) (verbose c).
Proof.
  induction items as [| [buf conv] rest IH]; intros val c; cbn zeta.
  - cbn; auto.
  - cbn [assigned scan_loop last_for].
    set (val' := match conv with Some v => v | None => val end).
    destruct (IH val' (assign_key buf val' c)) as (H1 & H2 & H3 & H4 & H5).
    destruct (assign_key_fields buf val' c) as (A1 & A2 & A3 & A4 & A5).
    cbn zeta in H1, H2, H3, H4, H5.
    rewrite H1, H2, H3, H4, H5, A1, A2, A3, A4, A5.
    rewrite !or_else_last.
    repeat split.
    destruct (last_for "max_time" (assigned rest val')); [reflexivity|].
    destruct (String.eqb "max_time" buf); reflexivity.
Qed.

(** X14: after [readConfig] every field holds the value of the last line
    of the file that names it ([max_time] times sixty for [time_limit]),
    and a field no line names keeps the value it had before the call: its
    current value, which on a reload need not be the built-in default.
    The call returns no configuration only when a word of the file does
    not fit [buf]. *)
Theorem readConfig_last_line_wins (items : list scan_item) (val0 : Z)
    (c : Config) :
  let ls := assigned items val0 in
  match readConfig (Some items) val0 c with
  | Some c' =>
      reset_period c' = or_else (last_for "reset_period" ls) (reset_period c) /\
      time_limit c'
        = or_else (minutes (last_for "max_time" ls)) (time_limit c) /\
      max_litres c' = or_else (last_for "max_litres" ls) (max_litres c) /\
      clicks_per_litre c'
        = or_else (last_for "clicks_per_litre" ls) (clicks_per_litre c) /\
      verbose c' = or_else (last_for "verbosity" ls) (verbose c)
  | None => forallb fits items = false
  end.
Proof.
  unfold readConfig; destruct (forallb fits items);
    [exact (scan_loop_fields items val0 c) | reflexivity].
Qed.

Lemma assigned_converted (items : list scan_item) (v1 v2 : Z) :
  forallb converted items = true -> assigned items v1 = assigned items v2.
Proof.
  destruct items as [| [buf [v|]] rest]; [reflexivity | | discriminate].
  intros _; reflexivity.
Qed.

Lemma or_else_idem (o : option Z) (d : Z) :
  or_else o (or_else o d) = or_else o d.
Proof. destruct o; reflexivity. Qed.

(** X15: when every line of the file carries a value, reading the same
    file twice leaves the configuration the first read produced, so a
    second SIGHUP with an unchanged file changes nothing in the state. *)
Theorem reload_twice_is_reload_once (items : list scan_item) (v1 v2 : Z)
    (s : State) :
  forallb converted items = true ->
  play [ASignal (SIGHUP (Some items) v1); ASignal (SIGHUP (Some items) v2)] s
  = play [ASignal (SIGHUP (Some items) v1)] s.
Proof.
  intros Hc; cbn [play act signalHandler].
  destruct (forallb fits items) eqn:Ef;
    [|unfold readConfig; rewrite Ef; reflexivity].
  rewrite readConfig_fits by exact Ef; cbn iota beta; simp_rec.
  rewrite readConfig_fits by exact Ef; cbn iota beta.
  set (c1 := scan_loop items v1 (cfg s)).
  assert (E : scan_loop items v2 c1 = c1).
  { destruct (scan_loop_fields items v2 c1) as (H1 & H2 & H3 & H4 & H5).
    destruct (scan_loop_fields items v1 (cfg s)) as (G1 & G2 & G3 & G4 & G5).
    cbn zeta in *; fold c1 in G1, G2, G3, G4, G5.
    rewrite (assigned_converted items v2 v1 Hc) in H1, H2, H3, H4, H5.
    rewrite G1 in H1; rewrite G2 in H2; rewrite G3 in H3;
      rewrite G4 in H4; rewrite G5 in H5.
    rewrite or_else_idem in H1, H2, H3, H4, H5.
    rewrite <- G1 in H1; rewrite <- G2 in H2; rewrite <- G3 in H3;
      rewrite <- G4 in H4; rewrite <- G5 in H5.
    destruct (scan_loop items v2 c1), c1; cbn in *; congruence. }
  unfold set_cfg; simp_rec; rewrite E; reflexivity.
Qed.

Lemma reload_twice_is_reload_once_witness :
  play [ASignal (SIGHUP (Some [("max_litres"%string, Some 50);
                               ("max_time"%string, Some 2)]) 0);
        ASignal (SIGHUP (Some [("max_litres"%string, Some 50);
                               ("max_time"%string, Some 2)]) 9)]
    tie_state
  = play [ASignal (SIGHUP (Some [("max_litres"%string, Some 50);
                                 ("max_time"%string, Some 2)]) 0)]
      tie_state.
Proof.
  apply (reload_twice_is_reload_once
           [("max_litres"%string, Some 50); ("max_time"%string, Some 2)]
           0 9 tie_state).
  reflexivity.
Defined.

(** When a line carries no value the second read can differ: the field is
    given whatever the local [val] holds. *)
Lemma reload_with_stale_value_differs :
  play [ASignal (SIGHUP (Some [("max_litres"%string, None)]) 1);
        ASignal (SIGHUP (Some [("max_litres"%string, None)]) 2)] tie_state
  <> play [ASignal (SIGHUP (Some [("max_litres"%string, None)]) 1)]
       tie_state.
Proof. vm_compute; discriminate. Qed.

Lemma to_int_add_l (a b : Z) : to_int (to_int a + b) = to_int (a + b).
Proof.
  unfold to_int, UINT_MOD.
  replace ((a + 2 ^ 31) mod 2 ^ 32 - 2 ^ 31 + b + 2 ^ 31)
    with ((a + 2 ^ 31) mod 2 ^ 32 + b) by lia.
  rewrite Zplus_mod_idemp_l.
  do 2 f_equal; lia.
Qed.

Lemma or_else_sel (o s : option Z) (d : Z) :
  or_else o (or_else s d)
  = or_else (match o with Some x => Some x | None => s end) d.
Proof. destruct o; reflexivity. Qed.

Lemma option_loop_fields (opts : list Opt) :
  forall st : Settings,
  let st' := fold_left apply_opt opts st in
  max_litres (scfg st')
    = or_else (last_opt sel_l opts) (max_litres (scfg st)) /\
  clicks_per_litre (scfg st')
    = or_else (last_opt sel_c opts) (clicks_per_litre (scfg st)) /\
  time_limit (scfg st')
    = or_else (minutes (last_opt sel_t opts)) (time_limit (scfg st)) /\
  reset_period (scfg st')
    = or_else (last_opt sel_r opts) (reset_period (scfg st)) /\
  verbose (scfg st')
    = (if existsb is_v opts
       then to_int (verbose (scfg st)
                    + Z.of_nat (List.length (filter is_v opts)))
       else verbose (scfg st)) /\
  daemonise st' = (if existsb is_d opts then 0 else daemonise st).
Proof.
  induction opts as [| o rest IH]; intros st; cbn zeta.
  - cbn; auto 10.
  - cbn [fold_left last_opt existsb filter].
    destruct (IH (apply_opt st o)) as (H1 & H2 & H3 & H4 & H5 & H6).
    cbn zeta in H1, H2, H3, H4, H5, H6.
    rewrite H1, H2, H3, H4, H5, H6; clear H1 H2 H3 H4 H5 H6 IH.
    destruct o; cbn [apply_opt scfg daemonise sel_l sel_c sel_t sel_r
                     is_d is_v orb max_litres clicks_per_litre time_limit
                     reset_period verbose with_max_litres
                     with_clicks_per_litre with_time_limit
                     with_reset_period with_verbose];
      repeat split;
      try (destruct (last_opt _ rest); reflexivity);
      try (destruct (existsb is_d rest); reflexivity).
    destruct (existsb is_v rest) eqn:E.
    + unfold add_int; rewrite to_int_add_l.
      cbn [List.length]; f_equal; lia.
    + assert (F : filter is_v rest = []).
      { clear - E; induction rest as [| o rest IH]; [reflexivity|].
        cbn in *; apply orb_false_elim in E as [E1 E2].
        rewrite E1; auto. }
      rewrite F; reflexivity.
Qed.

(** X16: the command line overrides the configuration file, option by
    option.  The last -l, -c, -r given sets [max_litres],
    [clicks_per_litre], [reset_period]; the last -t sets [time_limit] to
    sixty times its argument; a field with no option keeps what
    [readConfig] gave it; every -v adds one to the file's verbosity; -d,
    once or more, clears [daemonise]; an unknown option changes nothing.
    Start-up yields no settings exactly when [readConfig] yields no
    configuration, which takes a file with a word that does not fit
    [buf]. *)
Theorem command_line_overrides_file (file : option (list scan_item))
    (val0 : Z) (opts : list Opt) :
  match readConfig file val0 default_config, configure file val0 opts with
  | Some c0, Some st =>
      max_litres (scfg st) = or_else (last_opt sel_l opts) (max_litres c0) /\
      clicks_per_litre (scfg st)
        = or_else (last_opt sel_c opts) (clicks_per_litre c0) /\
      time_limit (scfg st)
        = or_else (minutes (last_opt sel_t opts)) (time_limit c0) /\
      reset_period (scfg st)
        = or_else (last_opt sel_r opts) (reset_period c0) /\
      verbose (scfg st)
        = (if existsb is_v opts
           then to_int (verbose c0
                        + Z.of_nat (List.length (filter is_v opts)))
           else verbose c0) /\
      daemonise st = (if existsb is_d opts then 0 else 1)
  | None, None =>
      exists items, file = Some items /\ forallb fits items = false
  | _, _ => False
  end.
Proof.
  unfold configure.
  destruct (readConfig file val0 default_config) as [c0|] eqn:E;
    cbn iota beta.
  - exact (option_loop_fields opts (mkSettings c0 1)).
  - destruct file as [items|]; [|discriminate].
    exists items; split; [reflexivity|].
    unfold readConfig in E; destruct (forallb fits items);
      [discriminate | reflexivity].
Qed.

(** * The notifier *)

Lemma split_ws_nonempty (s : string) : split_ws s <> [].
Proof.
  destruct s as [| a rest]; cbn; [discriminate|].
  destruct (is_space a); [discriminate|].
  destruct (split_ws rest); discriminate.
Qed.

Lemma word_space (a : ascii) (rest : string) :
  word (String a rest) = true -> is_space a = false /\ word rest = true.
Proof.
  cbn [word]; intros H.
  apply andb_prop in H as [H H2]; apply andb_prop in H as [H1 _].
  split; [now apply negb_true_iff in H1 | exact H2].
Qed.

(** a word followed by a whitespace character is the first field *)
Lemma split_ws_word (w : string) (a : ascii) (rest : string) :
  word w = true -> is_space a = true ->
  split_ws (w ++ String a rest) = w :: split_ws rest.
Proof.
  intros Hw Ha; induction w as [| c w IH]; cbn [append split_ws].
  - now rewrite Ha.
  - apply word_space in Hw as [Hc Hw].
    rewrite Hc, (IH Hw); reflexivity.
Qed.

Lemma split_ws_only_word (w : string) :
  word w = true -> split_ws w = [w].
Proof.
  induction w as [| c w IH]; intros Hw; cbn [split_ws]; [reflexivity|].
  apply word_space in Hw as [Hc Hw].
  rewrite Hc, (IH Hw); reflexivity.
Qed.

(** X17: for a record of two ASCII words separated by a tab and ended by
    a newline, which is what [writeState] is given on every call, the
    notifier's message names the first word as the pump status and the
    second as the reason. *)
Theorem record_is_reported (status reason : string) :
  word status = true ->
  word reason = true ->
  status_message (status ++ tab ++ reason ++ nl)
  = ("*Pump Status Changed*" ++ nl ++ "Pump is now " ++ status ++ nl
     ++ "Reason: " ++ reason)%string.
Proof.
  intros Hs Hr; unfold status_message.
  change (status ++ tab ++ reason ++ nl)%string
    with (status ++ String (ascii_of_nat 9)
            (reason ++ String (ascii_of_nat 10) EmptyString))%string.
  rewrite (split_ws_word status (ascii_of_nat 9) _ Hs eq_refl).
  rewrite (split_ws_word reason (ascii_of_nat 10) _ Hr eq_refl).
  reflexivity.
Qed.

Lemma record_is_reported_witness :
  status_message (stopped_line "volume")
  = ("*Pump Status Changed*" ++ nl ++ "Pump is now stopped" ++ nl
     ++ "Reason: volume")%string.
Proof.
  apply (record_is_reported "stopped" "volume"); reflexivity.
Defined.

(** X18: when the file holds a single word, or nothing at all (it is
    truncated by [fopen] before the record is written), the message
    gives that word, or nothing, as the status and the text "undefined"
    as the reason. *)
Theorem missing_reason_is_undefined (w : string) :
  word w = true ->
  status_message w
  = ("*Pump Status Changed*" ++ nl ++ "Pump is now " ++ w ++ nl
     ++ "Reason: undefined")%string.
Proof.
  intros Hw; unfold status_message.
  rewrite (split_ws_only_word w Hw); reflexivity.
Qed.

Lemma missing_reason_is_undefined_witness :
  status_message EmptyString
  = ("*Pump Status Changed*" ++ nl ++ "Pump is now " ++ EmptyString ++ nl
     ++ "Reason: undefined")%string.
Proof.
  apply (missing_reason_is_undefined EmptyString); reflexivity.
Defined.

Lemma nrun_app (l1 l2 : list NEvent) (n : Notifier) :
  nrun (l1 ++ l2) n = (n1 <- nrun l1 n ;; nrun l2 n1).
Proof.
  revert n; induction l1 as [| e l1 IH]; intros n; cbn [app nrun].
  - reflexivity.
  - destruct (nstep e n); [apply IH | reflexivity].
Qed.

Lemma nrun_changes (cs : list string) (last : string) (n : Notifier) :
  nrun (map changed (cs ++ [last])) n
  = Some (mkNotifier last (oldContents n) (sent n)).
Proof.
  revert n; induction cs as [| c cs IH]; intros n; cbn [app map nrun].
  - reflexivity.
  - unfold changed at 1; cbn [nstep].
    change (String.eqb "change" "change") with true.
    change (String.eqb stateFile EmptyString) with false.
    rewrite String.eqb_refl; cbn [andb negb].
    rewrite IH; reflexivity.
Qed.

(** X19: the notifier reports, at each interval, only what it read last.
    Of any number of changes of the state file read between two
    intervals the last one alone is reported, and nothing is sent when
    that last content equals the content reported before, so a stop that
    is reset within one interval is never announced. *)
Theorem only_last_content_is_reported (cs : list string) (last : string)
    (n : Notifier) :
  nrun (map changed (cs ++ [last]) ++ [Interval]) n
  = Some (mkNotifier last last
            (sent n ++
             if String.eqb (oldContents n) last then []
             else [status_message last])).
Proof.
  rewrite nrun_app, nrun_changes; cbn [nrun nstep fileContents oldContents sent].
  destruct (String.eqb_spec (oldContents n) last) as [E | E]; cbn [negb].
  - rewrite app_nil_r, E; reflexivity.
  - reflexivity.
Qed.

(** ** The state file of the daemon and the file of the notifier *)

(** X20: [writeState] opens /var/un/waterfuse/waterfuse.state, the
    notifier watches and reads /var/run/waterfuse/waterfuse.state: no
    sequence of records written by the daemon changes the file the
    notifier reads. *)
Theorem daemon_writes_miss_the_watched_file (lines : list string)
    (fs : Files) :
  notifier_reads
    (fold_left (fun fs line => write_file STATE_PATH line fs) lines fs)
  = notifier_reads fs.
Proof.
  revert fs; induction lines as [| line lines IH]; intros fs;
    cbn [fold_left]; [reflexivity|].
  rewrite IH; reflexivity.
Qed.

(** * Episodes *)

Lemma clicks_arrive_frame (k : nat) (s : State) :
  triggered (clicks_arrive k s) = triggered s /\
  counting (clicks_arrive k s) = counting s /\
  reset (clicks_arrive k s) = reset s /\
  cfg (clicks_arrive k s) = cfg s /\
  relay (clicks_arrive k s) = relay s /\
  statefile (clicks_arrive k s) = statefile s.
Proof.
  induction k as [| k IH]; [cbn; auto 10|].
  unfold clicks_arrive in *; rewrite Nat.iter_succ.
  unfold handleClick at 1 2 3 4 5 6; simp_rec; exact IH.
Qed.

(** X12: the volume of an episode starts from zero after a stall
    recovery.  When a Counting episode has been quiet for longer than
    [reset_period], the pass that notices it zeroes the counter, and the
    pass after the next [k] pulses opens a new episode whose counter
    holds those [k] pulses only and whose time runs from that pass;
    neither pass drives the relay or writes the state file. *)
Theorem stall_then_new_episode (t1 t2 : Z) (b1 b2 : Level) (s : State)
    (k : nat) :
  valid_cpl (cfg s) ->
  phase s = Counting ->
  reset s = 0 ->
  new_clicks_of s = 0 ->
  sub_int t1 (last_click_time s) > reset_period (cfg s) ->
  0 < Z.of_nat k <= INT_MAX ->
  exists s',
    play (ATick t1 b1 :: repeat APulse k ++ [ATick t2 b2]) s = Some s' /\
    phase s' = Counting /\
    clicks s' = Z.of_nat k /\
    first_click_time s' = t2 /\
    relay s' = relay s /\
    statefile s' = statefile s.
Proof.
  intros Hc Hp Hr Hn Hs Hk.
  apply phase_Counting in Hp as [Htr Hcn].
  cbn [play act].
  rewrite tick_no_reset by assumption.
  rewrite Hn, flow_stall by assumption.
  set (s1 := set_last_click_count 0
               (set_clicks 0 (set_counting false (after_read s)))).
  rewrite play_pulses; cbn [play act].
  destruct (clicks_arrive_frame k s1) as (F1 & F2 & F3 & F4 & F5 & F6).
  destruct (clicks_arrive_counter k s1) as [E1 E2].
  { unfold s1, uint_range, UINT_MOD; simp_rec; lia. }
  assert (Ek : clicks (clicks_arrive k s1) = Z.of_nat k).
  { rewrite E1; unfold s1; simp_rec; unfold INT_MAX in Hk.
    apply to_uint_small; unfold UINT_MOD; lia. }
  destruct (opening_pass t2 b2 (clicks_arrive k s1))
    as (s' & Hs' & P1 & P2 & _ & P4 & P5 & P6).
  - rewrite F4; exact Hc.
  - apply phase_Idle; rewrite F1, F2; unfold s1; simp_rec; auto.
  - rewrite F3; unfold s1; simp_rec; exact Hr.
  - unfold new_clicks_of; rewrite Ek, E2; unfold s1; simp_rec.
    unfold sub_uint; change (to_uint 0) with 0; rewrite Z.sub_0_r.
    unfold INT_MAX in Hk.
    rewrite to_uint_small by (unfold UINT_MOD; lia).
    rewrite to_int_small by (unfold int_range, INT_MIN, INT_MAX; lia).
    lia.
  - exists s'; rewrite Hs'; split; [reflexivity|].
    repeat split; try assumption.
    + congruence.
    + rewrite P5, F5; reflexivity.
    + rewrite P6, F6; reflexivity.
Qed.

Lemma stall_then_new_episode_witness :
  exists s',
    play (ATick 701 HIGH :: repeat APulse 5 ++ [ATick 800 HIGH])
      stalled_state = Some s' /\
    phase s' = Counting /\
    clicks s' = Z.of_nat 5 /\
    first_click_time s' = 800 /\
    relay s' = relay stalled_state /\
    statefile s' = statefile stalled_state.
Proof.
  apply (stall_then_new_episode 701 800 HIGH HIGH stalled_state 5);
    vm_compute;
    solve [reflexivity | discriminate
          | split; [reflexivity | discriminate]].
Defined.

(** X11: the stall test is strict.  A Counting pass that finds no new
    pulse after exactly [reset_period] seconds, or fewer, keeps the
    episode: the counter, the start of the episode and the time of the
    last pulse all stay, so the pulses that follow are added to the same
    volume and timed from the same start. *)
Theorem quiet_within_reset_period_keeps_episode (t : Z) (b : Level)
    (s : State) :
  valid_cpl (cfg s) ->
  phase s = Counting ->
  reset s = 0 ->
  new_clicks_of s = 0 ->
  sub_int t (last_click_time s) <= reset_period (cfg s) ->
  exists s',
    tick t b s = Some s' /\
    phase s' = Counting /\
    clicks s' = clicks s /\
    first_click_time s' = first_click_time s /\
    last_click_time s' = last_click_time s /\
    relay s' = relay s /\
    statefile s' = statefile s.
Proof.
  intros Hc Hp Hr Hn Hs.
  apply phase_Counting in Hp as [Htr Hcn].
  rewrite tick_no_reset by assumption.
  rewrite Hn; unfold flow_block; simp_rec; rewrite Htr, Hcn; cbn [negb].
  change (0 =? 0) with true; cbn iota.
  destruct (sub_int t (last_click_time s) >? reset_period (cfg s)) eqn:E;
    [lia|].
  eexists; split; [reflexivity|]; repeat split.
  apply phase_Counting; simp_rec; auto.
Qed.

Lemma quiet_within_reset_period_keeps_episode_witness :
  sub_int 700 (last_click_time stalled_state)
    = reset_period (cfg stalled_state) /\
  exists s',
    tick 700 HIGH stalled_state = Some s' /\
    phase s' = Counting /\
    clicks s' = clicks stalled_state /\
    first_click_time s' = first_click_time stalled_state /\
    last_click_time s' = last_click_time stalled_state /\
    relay s' = relay stalled_state /\
    statefile s' = statefile stalled_state.
Proof.
  split; [reflexivity|].
  apply (quiet_within_reset_period_keeps_episode 700 HIGH stalled_state);
    vm_compute;
    solve [reflexivity | discriminate
          | split; [reflexivity | discriminate]].
Defined.

(** * The relay and the record *)

Lemma flow_block_effects (t secs nc l : Z) (s s' : State) :
  flow_block t secs nc l s = Some s' ->
  (statefile s' = statefile s /\ relay s' = relay s) \/
  (exists line, In line [stopped_line "volume"; stopped_line "time"] /\
     statefile s' = statefile s ++ [line] /\ relay s' = LOW).
Proof.
  intros H.
  pose proof (flow_block_record t secs nc l s s' H) as R.
  apply flow_block_cases in H.
  destruct H as [-> | [-> | [-> | [(_ & why & ->) | ->]]]]; simp_rec; auto.
  destruct R as [R | (_ & line & Hin & R)]; simp_rec.
  - exfalso; revert R; clear.
    generalize (statefile s); intros l R.
    apply (f_equal (@List.length string)) in R.
    rewrite length_app in R; cbn in R; lia.
  - right; exists line; auto.
Qed.

(** X13: a pass never moves the relay without recording it.  When the
    relay level after a pass differs from the level before, the pass has
    appended exactly one record: a "stopped" one, volume or time, when
    the relay went LOW, a "started" one, button or signal, when it went
    HIGH. *)
Theorem relay_change_is_recorded (t : Z) (b : Level) (s s' : State) :
  tick t b s = Some s' ->
  relay s' <> relay s ->
  exists line,
    statefile s' = statefile s ++ [line] /\
    In line (if Level_eqb (relay s') LOW
             then [stopped_line "volume"; stopped_line "time"]
             else [started_line "button"; started_line "signal"]).
Proof.
  unfold tick; simp_rec; intros H Hd.
  destruct (div_int _ _); [|discriminate].
  destruct (div_uint _ _) as [l|]; [|discriminate].
  fold (new_clicks_of s) in H; fold (after_read s) in H.
  set (s0 := if triggered s && Level_eqb b LOW
             then set_reset 1 (after_read s) else after_read s) in H.
  assert (H0 : statefile s0 = statefile s /\ relay s0 = relay s).
  { subst s0; destruct (triggered s && Level_eqb b LOW); split; reflexivity. }
  destruct H0 as [Hf0 Hr0].
  destruct (reset s0 =? 0) eqn:Er; cbn [negb] in H.
  - apply flow_block_effects in H as [[H1 H2] | (line & Hin & H1 & H2)].
    + exfalso; apply Hd; congruence.
    + exists line; split; [congruence|].
      rewrite H2; exact Hin.
  - apply Z.eqb_neq in Er.
    destruct (reset_block t s0) as [s1|] eqn:E; [|discriminate].
    unfold reset_block, writeState in E; simp_rec.
    destruct (index reset_msg (reset s0)) as [why|] eqn:Ew; [|discriminate].
    apply index_reset_msg in Ew; [|exact Er].
    destruct (statefile_opens s0); [|discriminate].
    inversion E; subst s1; clear E.
    match type of H with flow_block _ ?secs _ _ ?s1 = _ =>
      destruct (flow_quiet t secs l s1) as (s2 & Hq & _ & Hy & Hf)
    end.
    rewrite Hq in H; inversion H; subst s2; simp_rec.
    exists (started_line why); split; [congruence|].
    rewrite Hy; destruct Ew as [-> | ->]; cbn; auto.
Qed.

Lemma relay_change_is_recorded_witness :
  exists line,
    statefile
      (mkState 0 0 false false 1500 0 1500 90450 default_config HIGH
         [started_line "startup"; stopped_line "time";
          started_line "signal"] true)
    = statefile tripped_state ++ [line] /\
    In line [started_line "button"; started_line "signal"].
Proof.
  apply (relay_change_is_recorded 1500 HIGH tripped_state).
  - vm_compute; reflexivity.
  - vm_compute; discriminate.
Defined.

(** * Witnesses for the properties of uninterrupted runs *)

Lemma play_keeps_relay_witness : relay_matches_phase tie_state.
Proof.
  apply (play_keeps_relay (pulses 450 ++ [ATick 0 HIGH] ++ pulses 90000)
           default_config tie_state).
  vm_compute; reflexivity.
Defined.

Lemma uninterrupted_reads_from_startup_witness :
  sum [1; 1000] = count_pulses (pulses 1 ++ [ATick 1 HIGH] ++ pulses 1000).
Proof.
  apply (uninterrupted_reads_from_startup volume_config
           (pulses 1 ++ [ATick 1 HIGH] ++ pulses 1000) 2 HIGH
           (mkState 1001 0 false true 2 1001 1 1001 volume_config HIGH
              [started_line "startup"] true)
           [1; 1000]).
  - vm_compute; discriminate.
  - vm_compute; reflexivity.
  - vm_compute; reflexivity.
Defined.

(** * Where a pass or a reload ends early *)



(** In [tie_state_no_statefile] both limits are exceeded and the file
    cannot be opened: the pass ends early. *)
Lemma tie_pass_without_statefile : tick 1000 HIGH tie_state_no_statefile = None.
Proof. vm_compute; reflexivity. Qed.

(** X24: a word of 1024 characters or more anywhere in the configuration
    file, key or not, ends the run of [readConfig] that meets it: at
    start-up no settings are produced, and on SIGHUP the handler does not
    return. *)
Theorem overlong_config_word_is_fatal (before after : list scan_item)
    (w : string) (conv : option Z) (val0 : Z) (c : Config)
    (opts : list Opt) (s : State) :
  (BUF_SIZE <= String.length w)%nat ->
  let file := Some (before ++ (w, conv) :: after) in
  readConfig file val0 c = None /\
  configure file val0 opts = None /\
  signalHandler (SIGHUP file val0) s = None.
Proof.
  intros H file; subst file.
  unfold configure, signalHandler.
  rewrite !readConfig_overrun by exact H.
  repeat split.
Qed.

Lemma overlong_config_word_is_fatal_witness :
  let file := Some ([("max_litres"%string, Some 5)]
                      ++ (long_word, Some 1) :: []) in
  readConfig file 0 default_config = None /\
  configure file 0 [] = None /\
  signalHandler (SIGHUP file 0) (startup default_config) = None.
Proof.
  apply (overlong_config_word_is_fatal [("max_litres"%string, Some 5)] []
           long_word (Some 1) 0 default_config [] (startup default_config)).
  apply Nat.leb_le; vm_compute; reflexivity.
Defined.
